(** * Buenos Aires Data Explorer: a shallow embedding of [ckan2.py] and
    [ba_explorer_app.py], and the properties of its naming, normalising,
    sorting, filtering and transport code. *)

From Stdlib Require Import String Ascii List ZArith NArith Bool Lia.
From Stdlib Require Import Permutation Sorted DecimalString.
Import ListNotations.

Set Warnings "-register-all".

(** ** Python values *)

Module Py.

(** A Python [str] is a sequence of Unicode code points; [len] and slices
    count code points. *)
Definition char := N.
Definition pystr := list char.

(** An ASCII literal of the source, as code points. *)
Definition str (s : string) : pystr := map N_of_ascii (list_ascii_of_string s).

Definition sp : char := 32%N.         (* ' ' *)
Definition hyphen : char := 45%N.     (* '-' *)
Definition dot : char := 46%N.        (* '.' *)
Definition underscore : char := 95%N. (* '_' *)

Definition pystr_eqb (a b : pystr) : bool :=
  if list_eq_dec N.eq_dec a b then true else false.

(** The tables of the Unicode character database behind [str.isalnum],
    the white space of [str.strip] and [str.split], [str.upper] and
    [str.lower].  They are not part of the repository. *)
Record unicode := {
  isalnum : char -> bool;
  isspace : char -> bool;
  upper : pystr -> pystr;
  lower : pystr -> pystr
}.

(** The ASCII part of those tables; code points from 128 on are left
    unclassified and unchanged. *)
Definition ascii_digit (c : char) : bool := ((48 <=? c) && (c <=? 57))%N.
Definition ascii_upper (c : char) : bool := ((65 <=? c) && (c <=? 90))%N.
Definition ascii_lower (c : char) : bool := ((97 <=? c) && (c <=? 122))%N.

Definition ascii_table : unicode := {|
  isalnum := fun c => ascii_digit c || ascii_upper c || ascii_lower c;
  isspace := fun c => ((9 <=? c) && (c <=? 13) || (28 <=? c) && (c <=? 32))%N;
  upper := map (fun c => if ascii_lower c then (c - 32)%N else c);
  lower := map (fun c => if ascii_upper c then (c + 32)%N else c)
|}.

(** [s[:n]] for a literal [n >= 0]. *)
Definition slice_to (n : nat) (s : pystr) : pystr := firstn n s.

Fixpoint dropwhile (p : char -> bool) (s : pystr) : pystr :=
  match s with
  | [] => []
  | c :: s' => if p c then dropwhile p s' else s
  end.

Fixpoint takewhile (p : char -> bool) (s : pystr) : pystr :=
  match s with
  | [] => []
  | c :: s' => if p c then c :: takewhile p s' else []
  end.

Section Text.
Variable U : unicode.

(** [s.strip()] *)
Definition strip (s : pystr) : pystr :=
  rev (dropwhile (isspace U) (rev (dropwhile (isspace U) s))).

(** [s.split()]: the maximal runs of characters that are not white
    space; [word] holds the run being read, last character first. *)
Fixpoint split_from (word s : pystr) : list pystr :=
  match s with
  | [] => match word with [] => [] | _ => [rev word] end
  | c :: s' =>
      if isspace U c
      then match word with
           | [] => split_from [] s'
           | _ => rev word :: split_from [] s'
           end
      else split_from (c :: word) s'
  end.

Definition split (s : pystr) : list pystr := split_from [] s.
End Text.

(** [sep.join(parts)] *)
Fixpoint join (sep : pystr) (parts : list pystr) : pystr :=
  match parts with
  | [] => []
  | [p] => p
  | p :: ps => p ++ sep ++ join sep ps
  end.

(** [s.replace(a, b)] for one-character [a] and [b]. *)
Definition replace1 (a b : char) (s : pystr) : pystr :=
  map (fun c => if N.eqb c a then b else c) s.

(** [s.endswith(t)] *)
Definition endswith (s t : pystr) : bool :=
  pystr_eqb (skipn (length s - length t) s) t && (length t <=? length s)%nat.

Fixpoint startswith (s t : pystr) : bool :=
  match t, s with
  | [], _ => true
  | _ :: _, [] => false
  | b :: t', a :: s' => N.eqb a b && startswith s' t'
  end.

(** [t in s] for strings: [t] occurs in [s] as a substring. *)
Fixpoint contains (s t : pystr) : bool :=
  startswith s t || match s with [] => false | _ :: s' => contains s' t end.

(** [os.path.join(a, b)] on POSIX, for a directory [a] that is not empty
    and does not end with a slash: an absolute [b] replaces [a]. *)
Definition slash : char := 47%N.

Definition path_join (a b : pystr) : pystr :=
  match b with
  | c :: _ => if N.eqb c slash then b else a ++ [slash] ++ b
  | [] => a ++ [slash]
  end.

(** [c * n], a rule of [n] characters. *)
Fixpoint rule (c : ascii) (n : nat) : string :=
  match n with
  | O => EmptyString
  | S n' => String c (rule c n')
  end.

(** [str(n)] for an integer. *)
Definition str_of_int (n : Z) : pystr := str (NilZero.string_of_int (Z.to_int n)).

(** *** Exceptions *)

Inductive exn :=
| HTTPError (code : Z) (reason : pystr)
| URLError (reason : pystr)
| TimeoutError
| JSONDecodeError
| UnicodeDecodeError
| AttributeError
| TypeError
| ValueError
| KeyError
| OtherException (name : pystr)
| KeyboardInterrupt
| SystemExit.

(** The classes named by the [except] clauses of the source;
    [CAny] is the bare [except:]. *)
Inductive exn_class := CHTTPError | CURLError | CJSONDecodeError | CException | CAny.

(** [isinstance(e, c)], along Python's class hierarchy: [HTTPError] derives
    from [URLError]; [KeyboardInterrupt] and [SystemExit] derive from
    [BaseException] only. *)
Definition isinstance (e : exn) (c : exn_class) : bool :=
  match c, e with
  | CAny, _ => true
  | CException, (KeyboardInterrupt | SystemExit) => false
  | CException, _ => true
  | CHTTPError, HTTPError _ _ => true
  | CURLError, (HTTPError _ _ | URLError _) => true
  | CJSONDecodeError, JSONDecodeError => true
  | _, _ => false
  end.

Inductive result (A : Type) :=
| Ok (a : A)
| Raise (e : exn).
Arguments Ok {A} a.
Arguments Raise {A} e.

Definition bind {A B} (r : result A) (k : A -> result B) : result B :=
  match r with
  | Ok a => k a
  | Raise e => Raise e
  end.

Fixpoint mapM {A B} (f : A -> result B) (l : list A) : result (list B) :=
  match l with
  | [] => Ok []
  | x :: l' =>
      bind (f x) (fun y => bind (mapM f l') (fun ys => Ok (y :: ys)))
  end.

(** *** JSON values, as [json.loads] builds them.  Numbers are the
    integers; an object keeps its members in order and a lookup takes the
    first member with the key. *)
Inductive json :=
| JNull
| JBool (b : bool)
| JInt (z : Z)
| JStr (s : pystr)
| JList (items : list json)
| JObj (members : list (pystr * json)).

(** Truth value of a JSON value in a condition. *)
Definition truthy (v : json) : bool :=
  match v with
  | JNull => false
  | JBool b => b
  | JInt z => negb (Z.eqb z 0)
  | JStr s => match s with [] => false | _ => true end
  | JList l => match l with [] => false | _ => true end
  | JObj m => match m with [] => false | _ => true end
  end.

Fixpoint lookup (k : pystr) (m : list (pystr * json)) : option json :=
  match m with
  | [] => None
  | (k', v) :: m' => if pystr_eqb k k' then Some v else lookup k m'
  end.

(** [d.get(k, default)]; a value that is not a dict has no [get]. *)
Definition get (d : json) (k : pystr) (default : json) : result json :=
  match d with
  | JObj m => Ok (match lookup k m with Some v => v | None => default end)
  | _ => Raise AttributeError
  end.

(** [a or b] *)
Definition or_else (a b : json) : json := if truthy a then a else b.

(** *** [sorted(xs, key=..., reverse=...)] on integer keys: a stable
    insertion sort; with [reverse] the list is reversed before and after,
    as CPython does to keep the sort stable. *)
Section Sorted.
Context {A : Type}.
Variable key : A -> Z.

Fixpoint insert (x : A) (l : list A) : list A :=
  match l with
  | [] => [x]
  | y :: l' => if (key x <=? key y)%Z then x :: l else y :: insert x l'
  end.

Definition sort_asc (l : list A) : list A := fold_right insert [] l.

Definition sorted (reverse : bool) (l : list A) : list A :=
  if reverse then rev (sort_asc (rev l)) else sort_asc l.
End Sorted.

(** [a < b] on strings: by code points, a proper prefix first. *)
Fixpoint pystr_ltb (a b : pystr) : bool :=
  match a, b with
  | _, [] => false
  | [], _ :: _ => true
  | x :: a', y :: b' => (x <? y)%N || (N.eqb x y && pystr_ltb a' b')
  end.

(** The same sort on keys of any type compared by [<]: an item goes before
    the first one that is not below it. *)
Section SortedBy.
Context {A K : Type}.
Variable lt : K -> K -> bool.
Variable key : A -> K.

Fixpoint insert_by (x : A) (l : list A) : list A :=
  match l with
  | [] => [x]
  | y :: l' => if lt (key y) (key x) then y :: insert_by x l' else x :: l
  end.

Definition sort_asc_by (l : list A) : list A := fold_right insert_by [] l.

Definition sorted_by (reverse : bool) (l : list A) : list A :=
  if reverse then rev (sort_asc_by (rev l)) else sort_asc_by l.
End SortedBy.

(** The keys [<] orders: the numbers ([True] and [False] are 1 and 0)
    among themselves, and the strings among themselves. *)
Definition is_number (k : json) : bool :=
  match k with
  | JInt _ | JBool _ => true
  | _ => false
  end.

Definition number (k : json) : Z :=
  match k with
  | JInt z => z
  | JBool b => if b then 1%Z else 0%Z
  | _ => 0%Z
  end.

Definition is_text (k : json) : bool :=
  match k with
  | JStr _ => true
  | _ => false
  end.

Definition text (k : json) : pystr :=
  match k with
  | JStr s => s
  | _ => []
  end.

(** [sorted] on items given with their keys, the keys being JSON values.
    A list of fewer than two items is returned without a comparison.
    From two items on every key is compared with another one: numbers are
    sorted, strings are sorted, and [<] raises [TypeError] at [None], at a
    dict, and between a number and a string.  Keys that are lists are not
    modelled: the model stops with [TypeError] there too. *)
Definition sorted_keyed {A} (reverse : bool) (keyed : list (json * A))
  : result (list A) :=
  match keyed with
  | [] | [_] => Ok (map snd keyed)
  | _ =>
      if forallb (fun kx => is_number (fst kx)) keyed
      then Ok (map snd (sorted (fun kx => number (fst kx)) reverse keyed))
      else if forallb (fun kx => is_text (fst kx)) keyed
      then Ok (map snd (sorted_by pystr_ltb (fun kx => text (fst kx)) reverse keyed))
      else Raise TypeError
  end.

(** The items a [for] loop takes from a value. *)
Definition iter (v : json) : result (list json) :=
  match v with
  | JList l => Ok l
  | JStr s => Ok (map (fun c => JStr [c]) s)
  | JObj m => Ok (map (fun kv => JStr (fst kv)) m)
  | _ => Raise TypeError
  end.

(** [len(v)] *)
Definition len (v : json) : result nat :=
  match v with
  | JStr s => Ok (length s)
  | JList l => Ok (length l)
  | JObj m => Ok (length m)
  | _ => Raise TypeError
  end.

(** [v[:n]]; a dict takes no slice ([TypeError]; [KeyError] from
    Python 3.12 on). *)
Definition slice (n : nat) (v : json) : result json :=
  match v with
  | JStr s => Ok (JStr (slice_to n s))
  | JList l => Ok (JList (firstn n l))
  | _ => Raise TypeError
  end.

(** [v if len(v) <= limit else v[:keep] + "..."] *)
Definition abbreviate (limit keep : nat) (v : json) : result json :=
  match v with
  | JStr s => Ok (JStr (if (limit <? length s)%nat
                        then slice_to keep s ++ str "..." else s))
  | JList l => if (limit <? length l)%nat then Raise TypeError else Ok v
  | JObj m => if (limit <? length m)%nat then Raise TypeError else Ok v
  | _ => Raise TypeError
  end.

(** The parameters annotated [str] are modelled on strings; the model
    stops with [TypeError] at a value of another type. *)
Definition as_str (v : json) : result pystr :=
  match v with
  | JStr s => Ok s
  | _ => Raise TypeError
  end.

End Py.

Declare Scope py_scope.
Delimit Scope py_scope with py.
Notation "x <- e ;; k" := (Py.bind e (fun x => k))
  (at level 61, e at next level, right associativity) : py_scope.
Declare Scope io_scope.

(** ** The world outside the program *)

Module World.
Import Py.

(** One line of output ([print], or a Streamlit message): the fixed text of
    the source's format string and the values it interpolates. *)
Inductive event := Out (text : string) (values : list json).

(** The state the command-line explorer works on: the [current_datasets]
    attribute of [MenuExplorer] and the lines written so far. *)
Record session := {
  current_datasets : json;
  stdout : list event
}.

(** A request as [urllib] sends it; [req_params] holds the values that
    [urlencode] turns into the query string.  [req_target] is the file the
    body is written to, for a download: the directory is made before the
    request is sent and the file is opened and written once the server has
    answered. *)
Record request := {
  req_url : pystr;
  req_params : list (pystr * json);
  req_headers : list (pystr * pystr);
  req_timeout : Z;
  req_target : option pystr
}.

(** What [urlopen(...)] followed by [response.read().decode('utf-8')] does:
    it raises, or gives a text, which is a JSON document or not.  For a
    request with a target it is what [os.makedirs], [urlopen], [open] and
    the loop of [read] and [write] do together: one of them raises, or the
    body is in the file. *)
Inductive response :=
| Fails (e : exn)
| Text (document : option json).

Definition upstream := request -> response.

(** Computations that write output, may change the session and may raise. *)
Definition M (A : Type) := session -> result A * session.

Definition ret {A} (a : A) : M A := fun w => (Ok a, w).

Definition raise {A} (e : exn) : M A := fun w => (Raise e, w).

Definition bindM {A B} (m : M A) (k : A -> M B) : M B :=
  fun w => match m w with
           | (Ok a, w') => k a w'
           | (Raise e, w') => (Raise e, w')
           end.

Definition lift {A} (r : result A) : M A := fun w => (r, w).

Definition print (text : string) (values : list json) : M unit :=
  fun w => (Ok tt, {| current_datasets := current_datasets w;
                      stdout := stdout w ++ [Out text values] |}).

Definition set_current_datasets (datasets : json) : M unit :=
  fun w => (Ok tt, {| current_datasets := datasets; stdout := stdout w |}).

(** The first [except] clause whose class the exception is an instance of. *)
Fixpoint dispatch {A} (e : exn) (handlers : list (exn_class * (exn -> M A)))
  : option (exn -> M A) :=
  match handlers with
  | [] => None
  | (c, h) :: handlers' => if isinstance e c then Some h else dispatch e handlers'
  end.

(** [try: body except c1 as e: h1 ... except cn as e: hn] *)
Definition try_except {A} (body : M A) (handlers : list (exn_class * (exn -> M A)))
  : M A :=
  fun w => match body w with
           | (Ok a, w') => (Ok a, w')
           | (Raise e, w') =>
               match dispatch e handlers with
               | Some h => h e w'
               | None => (Raise e, w')
               end
           end.

(** [e.code], [e.reason] of the exception a handler prints. *)
Definition exn_values (e : exn) : list json :=
  match e with
  | HTTPError code reason => [JInt code; JStr reason]
  | URLError reason => [JStr reason]
  | _ => []
  end.

(** [e.code] in the handler of an [HTTPError]. *)
Definition exn_code (e : exn) : Z :=
  match e with
  | HTTPError code _ => code
  | _ => 0%Z
  end.

(** [urlopen], [read], [decode] and [json.loads] in one step. *)
Definition fetch_json (up : upstream) (req : request) : M json :=
  match up req with
  | Fails e => raise e
  | Text None => raise JSONDecodeError
  | Text (Some json_data) => ret json_data
  end.

End World.

Notation "x <- e ;; k" := (World.bindM e (fun x => k))
  (at level 61, e at next level, right associativity) : io_scope.
Notation "e ;;; k" := (World.bindM e (fun _ => k))
  (at level 61, right associativity) : io_scope.

(** ** [BuenosAiresCKAN] and [RealTimeAPI], the same in both programs up to
    the user agent and the output channel *)

Module Transport.
Import Py World.
Local Open Scope io_scope.

Definition base_url : pystr := str "https://data.buenosaires.gob.ar/api/3/action".

Section Client.
Variable user_agent : pystr.
Variable up : upstream.

(** The request [make_request] builds. *)
Definition catalog_request (endpoint : pystr) (params : list (pystr * json)) : request :=
  {| req_url := base_url ++ str "/" ++ endpoint;
     req_params := params;
     req_headers := [(str "User-Agent", user_agent)];
     req_timeout := 30;
     req_target := None |}.

(** [BuenosAiresCKAN.make_request] *)
Definition make_request (endpoint : pystr) (params : list (pystr * json)) : M json :=
  try_except
    (json_data <- fetch_json up (catalog_request endpoint params) ;;
     success <- lift (get json_data (str "success") JNull) ;;
     if truthy success
     then lift (get json_data (str "result") JNull)
     else
       err <- lift (get json_data (str "error") (JStr (str "Error desconocido"))) ;;
       print "Error en la API: {}" [err] ;;;
       ret JNull)
    [ (CHTTPError, fun e => print "Error HTTP {}: {}" (exn_values e) ;;; ret JNull);
      (CURLError, fun e => print "Error de conexion: {}" (exn_values e) ;;; ret JNull);
      (CJSONDecodeError, fun e => print "Error al decodificar JSON: {}" [] ;;; ret JNull);
      (CException, fun e => print "Error inesperado: {}" [] ;;; ret JNull) ].

(** The [params] of [search_packages]. *)
Definition search_params (query : pystr) (rows : Z) : list (pystr * json) :=
  [ (str "q", JStr query);
    (str "rows", JStr (str_of_int rows));
    (str "sort", JStr (str "metadata_modified desc")) ].

(** [BuenosAiresCKAN.search_packages] *)
Definition search_packages (query : pystr) (rows : Z) : M json :=
  let params := search_params query rows in
  result <- make_request (str "package_search") params ;;
  ret (if truthy result then result else JObj []).

(** [BuenosAiresCKAN.get_package_info] *)
Definition get_package_info (package_id : json) : M json :=
  make_request (str "package_show") [(str "id", package_id)].

(** [BuenosAiresCKAN.get_organizations] *)
Definition get_organizations : M json :=
  result <- make_request (str "organization_list") [(str "all_fields", JStr (str "true"))] ;;
  ret (if truthy result then result else JList []).

(** The request [make_api_request] builds. *)
Definition realtime_request (url : pystr) (params : list (pystr * json)) : request :=
  {| req_url := url;
     req_params := params;
     req_headers := [(str "User-Agent", user_agent);
                     (str "Accept", str "application/json")];
     req_timeout := 15;
     req_target := None |}.

(** [RealTimeAPI.make_api_request] of [ckan2.py] *)
Definition make_api_request (url : pystr) (params : list (pystr * json)) : M json :=
  try_except
    (fetch_json up (realtime_request url params))
    [ (CHTTPError, fun e =>
         print "Error HTTP {}: {}" (exn_values e) ;;;
         (if (exn_code e =? 401)%Z then print "API requiere autenticacion" []
          else if (exn_code e =? 429)%Z then print "Limite de requests excedido" []
          else ret tt) ;;;
         ret JNull);
      (CURLError, fun e => print "Error de conexion: {}" (exn_values e) ;;; ret JNull);
      (CJSONDecodeError, fun e => print "Error al decodificar respuesta: {}" [] ;;; ret JNull);
      (CException, fun e => print "Error inesperado: {}" [] ;;; ret JNull) ].
End Client.

End Transport.

(** ** Library functions of [datetime] used by the listing *)

Module Datetime.
Import Py.
Local Open Scope Z_scope.

Record date := { year : Z; month : Z; day : Z }.

(** [datetime.strptime(s, '%Y-%m-%d')] ([None] for [ValueError]) and
    [d.strftime('%d/%m/%Y')].  They are not part of the repository. *)
Record library := {
  strptime_ymd : pystr -> option date;
  strftime_dmy : date -> pystr
}.

(** A model of the two functions on ASCII digits, after CPython's
    [_strptime]: four digits of year, then month and day by the ordered
    alternatives of its regular expressions, the whole input consumed, and
    the date a day of the calendar. *)
Definition digit (c : char) : Z := (Z.of_N c - 48)%Z.

Definition between (lo hi c : N) : bool := ((lo <=? c) && (c <=? hi))%N.

(** [1[0-2]|0[1-9]|[1-9]] *)
Definition month_alternatives (s : pystr) : list (Z * pystr) :=
  match s with
  | 49%N :: c :: r => if between 48 50 c then [(10 + digit c, r)] else []
  | _ => []
  end ++
  match s with
  | 48%N :: c :: r => if between 49 57 c then [(digit c, r)] else []
  | _ => []
  end ++
  match s with
  | c :: r => if between 49 57 c then [(digit c, r)] else []
  | _ => []
  end.

(** [3[0-1]|[1-2]\d|0[1-9]|[1-9]| [1-9]] *)
Definition day_alternatives (s : pystr) : list (Z * pystr) :=
  match s with
  | 51%N :: c :: r => if between 48 49 c then [(30 + digit c, r)] else []
  | _ => []
  end ++
  match s with
  | c :: c' :: r =>
      if between 49 50 c && between 48 57 c' then [(10 * digit c + digit c', r)] else []
  | _ => []
  end ++
  match s with
  | 48%N :: c :: r => if between 49 57 c then [(digit c, r)] else []
  | _ => []
  end ++
  match s with
  | c :: r => if between 49 57 c then [(digit c, r)] else []
  | _ => []
  end ++
  match s with
  | 32%N :: c :: r => if between 49 57 c then [(digit c, r)] else []
  | _ => []
  end.

Definition leap (y : Z) : bool :=
  ((y mod 4 =? 0) && negb (y mod 100 =? 0) || (y mod 400 =? 0))%Z.

Definition days_in_month (y m : Z) : Z :=
  if (m =? 2)%Z then (if leap y then 29 else 28)
  else if ((m =? 4) || (m =? 6) || (m =? 9) || (m =? 11))%Z then 30 else 31.

Definition ascii_strptime_ymd (s : pystr) : option date :=
  match s with
  | y1 :: y2 :: y3 :: y4 :: 45%N :: r =>
      if forallb (between 48 57) [y1; y2; y3; y4] then
        let y := (1000 * digit y1 + 100 * digit y2 + 10 * digit y3 + digit y4)%Z in
        let matches :=
          flat_map (fun mr : Z * pystr =>
                      match snd mr with
                      | 45%N :: r' => map (fun dr : Z * pystr => (fst mr, fst dr, snd dr))
                                          (day_alternatives r')
                      | _ => []
                      end) (month_alternatives r) in
        match matches with
        | (m, d, []) :: _ =>
            if ((1 <=? y) && (d <=? days_in_month y m))%Z
            then Some {| year := y; month := m; day := d |}
            else None
        | _ => None
        end
      else None
  | _ => None
  end.

Definition two_digits (n : Z) : pystr :=
  [N.add 48 (Z.to_N (n / 10)); N.add 48 (Z.to_N (n mod 10))].

Definition ascii_strftime_dmy (d : date) : pystr :=
  two_digits (day d) ++ str "/" ++ two_digits (month d) ++ str "/"
  ++ two_digits (year d / 100) ++ two_digits (year d mod 100).

Definition ascii_library : library := {|
  strptime_ymd := ascii_strptime_ymd;
  strftime_dmy := ascii_strftime_dmy
|}.

End Datetime.

(** ** [ckan2.py]: the command-line explorer *)

Module Ckan2.
Import Py World Datetime.
Local Open Scope io_scope.

Definition user_agent : pystr := str "Buenos Aires Data Explorer/2.0".

(** ['Sin descripción'] and ['Sin título'], with their accented letters. *)
Definition sin_descripcion : pystr := str "Sin descripci" ++ [243%N] ++ str "n".
Definition sin_titulo : pystr := str "Sin t" ++ [237%N] ++ str "tulo".

Definition letter_T : char := 84%N.

Fixpoint for_each {A} (f : Z -> A -> M unit) (i : Z) (l : list A) : M unit :=
  match l with
  | [] => ret tt
  | x :: l' => f i x ;;; for_each f (i + 1)%Z l'
  end.

Definition when (c : bool) (m : M unit) : M unit := if c then m else ret tt.

(** [formats.append(fmt)] unless [fmt] is in [formats] already. *)
Definition append_new (formats : list pystr) (fmt : pystr) : list pystr :=
  if existsb (pystr_eqb fmt) formats then formats else formats ++ [fmt].

Section Explorer.
Variable U : unicode.
Variable D : library.
Variable up : upstream.

Definition search_packages := Transport.search_packages user_agent up.
Definition get_package_info := Transport.get_package_info user_agent up.
Definition get_organizations := Transport.get_organizations user_agent up.

(** The request [download_resource] builds, and the file it fills. *)
Definition download_request (url filepath : pystr) : request :=
  {| req_url := url;
     req_params := [];
     req_headers := [(str "User-Agent", user_agent)];
     req_timeout := 60;
     req_target := Some filepath |}.

(** [BuenosAiresCKAN.download_resource].  The directory, the request and
    the file are one step of the world: what any of them raises is raised
    inside the [try]. *)
Definition download_resource (url : json) (filename : pystr) : M bool :=
  try_except
    (print "Descargando: {}" [JStr filename] ;;;
     let filepath := path_join (str "downloads") filename in
     u <- lift (as_str url) ;;
     match up (download_request u filepath) with
     | Fails e => raise e
     | Text _ =>
         print "Descarga completada: {}" [JStr filepath] ;;;
         ret true
     end)
    [ (CHTTPError, fun e =>
         print "Error HTTP al descargar {}: {} {}" (JStr filename :: exn_values e) ;;;
         ret false);
      (CURLError, fun e =>
         print "Error de conexion al descargar {}: {}" (JStr filename :: exn_values e) ;;;
         ret false);
      (CException, fun e => print "Error al descargar {}: {}" [JStr filename] ;;; ret false) ].

(** [MenuExplorer.clean_filename] *)
Definition clean_filename (filename : pystr) : pystr :=
  let clean_chars :=
    map (fun char =>
           if isalnum U char || existsb (N.eqb char) [sp; hyphen; underscore; dot]
           then char else underscore) filename in
  let result := strip U clean_chars in
  let result := join [sp] (split U result) in
  let result := replace1 sp underscore result in
  slice_to 50 result.

(** [resource.get('format', 'N/A').upper()], as the listing, the details
    and the download menu compute it. *)
Definition format_upper (resource : json) : result pystr :=
  (fmt <- get resource (str "format") (JStr (str "N/A")) ;;
   match fmt with
   | JStr s => Ok (upper U s)
   | _ => Raise AttributeError
   end)%py.

(** [MenuExplorer.descargar_recurso_individual] up to its last line: the
    URL and the file name it hands to [download_resource], or [None] when
    the resource has no URL. *)
Definition download_name (resource dataset_name : json) : result (option (json * pystr)) :=
  (url <- get resource (str "url") JNull ;;
   if negb (truthy url) then Ok None else
   name0 <- get resource (str "name") JNull ;;
   description <- get resource (str "description") JNull ;;
   let name := or_else (or_else name0 description) (JStr (str "recurso")) in
   fmt <- get resource (str "format") (JStr []) ;;
   format_type <- match fmt with
                  | JStr s => Ok (lower U s)
                  | _ => Raise AttributeError
                  end ;;
   name_str <- as_str name ;;
   let safe_name := clean_filename name_str in
   dataset_str <- as_str (or_else dataset_name (JStr (str "dataset"))) ;;
   let safe_dataset := clean_filename dataset_str in
   let filename :=
     if truthy (JStr format_type) && negb (endswith safe_name (dot :: format_type))
     then safe_dataset ++ [underscore] ++ safe_name ++ [dot] ++ format_type
     else safe_dataset ++ [underscore] ++ safe_name in
   Ok (Some (url, filename)))%py.

Definition descargar_recurso_individual (resource dataset_name : json) : M unit :=
  target <- lift (download_name resource dataset_name) ;;
  match target with
  | None => print "Este recurso no tiene URL de descarga." []
  | Some (url, filename) => download_resource url filename ;;; ret tt
  end.

(** [mostrar_lista_datasets], the description of one dataset. *)
Definition lista_notes (dataset : json) : result json :=
  (notes <- get dataset (str "notes") (JStr sin_descripcion) ;;
   abbreviate 100 100 notes)%py.

(** [mostrar_lista_datasets], the date of one dataset.  A [ValueError] of
    [strptime] is caught by the bare [except]. *)
Definition lista_modified (dataset : json) : result json :=
  (modified <- get dataset (str "metadata_modified") (JStr []) ;;
   if negb (truthy modified) then Ok modified else
   match modified with
   | JStr s =>
       if existsb (N.eqb letter_T) s then
         let date_part := takewhile (fun c => negb (N.eqb c letter_T)) s in
         match strptime_ymd D date_part with
         | Some date_obj => Ok (JStr (strftime_dmy D date_obj))
         | None => Ok (JStr (if (10 <=? length s)%nat then slice_to 10 s else s))
         end
       else Ok (JStr (slice_to 10 s))
   | JList l => Ok (JList (firstn 10 l))
   | JObj m => if (10 <=? length m)%nat then Raise TypeError else Ok modified
   | _ => Raise TypeError
   end)%py.

(** [mostrar_lista_datasets], the formats of one dataset: [None] when it
    has no resources. *)
Definition lista_formats (dataset : json) : result (option (list pystr)) :=
  (resources <- get dataset (str "resources") (JList []) ;;
   if negb (truthy resources) then Ok None else
   items <- iter resources ;;
   fmts <- mapM format_upper items ;;
   Ok (Some (fold_left append_new fmts [])))%py.

Definition mostrar_dataset (i : Z) (dataset : json) : M unit :=
  name <- lift (get dataset (str "name") (JStr sin_titulo)) ;;
  title <- lift (get dataset (str "title") name) ;;
  notes <- lift (lista_notes dataset) ;;
  modified <- lift (lista_modified dataset) ;;
  print "{}. {}" [JInt i; title] ;;;
  print "{}" [notes] ;;;
  when (truthy modified) (print "Actualizado: {}" [modified]) ;;;
  formats <- lift (lista_formats dataset) ;;
  match formats with
  | Some fs => print "Formatos: {}" [JStr (join (str ", ") fs)]
  | None => ret tt
  end.

(** [MenuExplorer.mostrar_lista_datasets] *)
Definition mostrar_lista_datasets (datasets : json) : M unit :=
  if negb (truthy datasets) then print "No hay datasets para mostrar." [] else
  items <- lift (iter datasets) ;;
  for_each mostrar_dataset 1%Z items.

Definition temas_populares : list pystr :=
  map str [ "transporte"; "salud"; "economia"; "seguridad"; "educacion";
            "cultura"; "ambiente"; "turismo"; "obras"; "presupuesto" ]%string.

(** [MenuExplorer.buscar_por_tema]; [query] is the line the user typed at
    the prompt, stripped. *)
Definition buscar_por_tema (query : pystr) : M unit :=
  print "BUSQUEDA POR TEMA" [] ;;;
  print (rule "-" 30) [] ;;;
  print "Temas populares: {}" [JStr (join (str ", ") temas_populares)] ;;;
  print "Ingresa termino de busqueda (o Enter para ver todos): " [] ;;;
  print "Buscando datasets con '{}'..." [JStr query] ;;;
  result <- search_packages query 20 ;;
  if negb (truthy result) then print "No se pudieron obtener resultados." [] else
  datasets <- lift (get result (str "results") (JList [])) ;;
  total_count <- lift (get result (str "count") (JInt 0)) ;;
  print "Encontrados {} datasets (mostrando primeros 20)" [total_count] ;;;
  print (rule "-" 50) [] ;;;
  set_current_datasets datasets ;;;
  mostrar_lista_datasets datasets.

(** The key of the organization sort, [lambda x: x.get('package_count', 0)]. *)
Definition package_count (x : json) : result json :=
  get x (str "package_count") (JInt 0).

(** [sorted(orgs, key=lambda x: x.get('package_count', 0), reverse=True)]:
    the keys are computed first, one per item, and then compared. *)
Definition sorted_by_package_count (orgs : json) : result (list json) :=
  (items <- iter orgs ;;
   keyed <- mapM (fun x => k <- package_count x ;; Ok (k, x)) items ;;
   sorted_keyed true keyed)%py.

(** [MenuExplorer.ver_por_organizacion], the ten organizations it lists. *)
Definition orgs_sorted (orgs : json) : result (list json) :=
  (l <- sorted_by_package_count orgs ;; Ok (firstn 10 l))%py.

Definition tag_name (tag : json) : result (list json) :=
  match tag with
  | JObj _ => (n <- get tag (str "name") JNull ;; Ok (if truthy n then [n] else []))%py
  | JStr _ => Ok [tag]
  | _ => Ok []
  end.

Definition mostrar_recurso (i : Z) (resource : json) : M unit :=
  name0 <- lift (get resource (str "name") JNull) ;;
  description <- lift (get resource (str "description") JNull) ;;
  let name := or_else (or_else name0 description)
                      (JStr (str "Recurso " ++ str_of_int i)) in
  format_type <- lift (format_upper resource) ;;
  size <- lift (get resource (str "size") JNull) ;;
  print "{}. {}" [JInt i; name] ;;;
  print "Formato: {}{}" [JStr format_type; size] ;;;
  url <- lift (get resource (str "url") JNull) ;;
  when (truthy url)
       (display_url <- lift (abbreviate 80 77 url) ;; print "URL: {}" [display_url]).

(** [MenuExplorer.mostrar_detalles_completos], in the four parts it
    prints one after the other once it has the details: the heading down
    to the organization, the two dates, the tags and the resources. *)
Definition detalles_encabezado (detailed_info : json) : M unit :=
  print (rule "=" 60) [] ;;;
  title <- lift (get detailed_info (str "title") (JStr sin_titulo)) ;;
  print "{}" [title] ;;;
  print (rule "=" 60) [] ;;;
  name <- lift (get detailed_info (str "name") JNull) ;;
  print "ID: {}" [name] ;;;
  notes <- lift (get detailed_info (str "notes") (JStr (str "No disponible"))) ;;
  print "Descripcion: {}" [notes] ;;;
  org <- lift (get detailed_info (str "organization") (JObj [])) ;;
  when (truthy org)
       (org_name0 <- lift (get org (str "name") (JStr (str "N/A"))) ;;
        org_name <- lift (get org (str "title") org_name0) ;;
        print "Organizacion: {}" [org_name]).

Definition detalles_fechas (detailed_info : json) : M unit :=
  created <- lift (get detailed_info (str "metadata_created") (JStr [])) ;;
  modified <- lift (get detailed_info (str "metadata_modified") (JStr [])) ;;
  when (truthy created)
       (c <- lift (slice 10 created) ;; print "Creado: {}" [c]) ;;;
  when (truthy modified)
       (m <- lift (slice 10 modified) ;; print "Actualizado: {}" [m]).

Definition detalles_tags (detailed_info : json) : M unit :=
  tags <- lift (get detailed_info (str "tags") (JList [])) ;;
  when (truthy tags)
       (items <- lift (iter tags) ;;
        names <- lift (mapM tag_name items) ;;
        match concat names with
        | [] => ret tt
        | tag_names =>
            strs <- lift (mapM as_str tag_names) ;;
            print "Tags: {}" [JStr (join (str ", ") strs)]
        end).

Definition detalles_recursos (detailed_info : json) : M unit :=
  resources <- lift (get detailed_info (str "resources") (JList [])) ;;
  when (truthy resources)
       (n <- lift (len resources) ;;
        print "RECURSOS DISPONIBLES ({}):" [JInt (Z.of_nat n)] ;;;
        print (rule "-" 40) [] ;;;
        items <- lift (iter resources) ;;
        for_each mostrar_recurso 1%Z items).

Definition mostrar_detalles_completos (dataset : json) : M unit :=
  id <- lift (get dataset (str "id") JNull) ;;
  name <- lift (get dataset (str "name") JNull) ;;
  let package_id := or_else id name in
  print "Obteniendo detalles de: {}" [package_id] ;;;
  detailed_info <- get_package_info package_id ;;
  if negb (truthy detailed_info)
  then print "No se pudo obtener informacion detallada." []
  else
    detalles_encabezado detailed_info ;;;
    detalles_fechas detailed_info ;;;
    detalles_tags detailed_info ;;;
    detalles_recursos detailed_info.
End Explorer.

End Ckan2.

(** ** [ba_explorer_app.py]: the dashboard *)

Module App.
Import Py World.
Local Open Scope io_scope.

Definition user_agent : pystr := str "Buenos Aires Data Explorer Web v2.0".

Definition sin_organizacion : pystr := str "Sin organizaci" ++ [243%N] ++ str "n".

(** A row of the data frame [process_datasets] builds. *)
Record row := {
  titulo : json;
  organizacion : json;
  fecha_modificacion : json;
  num_recursos : nat;
  formatos : pystr;
  id : json;
  descripcion : pystr
}.

(** ['results' in v] *)
Definition has_results (v : json) : result bool :=
  match v with
  | JObj m => Ok (match lookup (str "results") m with Some _ => true | None => false end)
  | JList l => Ok (existsb (fun x => match x with
                                     | JStr s => pystr_eqb s (str "results")
                                     | _ => false
                                     end) l)
  | JStr s => Ok (contains s (str "results"))
  | _ => Raise TypeError
  end.

(** [v['results']] *)
Definition item_results (v : json) : result json :=
  match v with
  | JObj m => match lookup (str "results") m with
              | Some x => Ok x
              | None => Raise KeyError
              end
  | _ => Raise TypeError
  end.

(** The options of the format filter. *)
Inductive format_choice := Todos | CSV | JSON | PDF | Excel.

Definition format_label (f : format_choice) : pystr :=
  match f with
  | Todos => str "Todos"
  | CSV => str "CSV"
  | JSON => str "JSON"
  | PDF => str "PDF"
  | Excel => str "Excel"
  end.

Section Dashboard.
(** The order in which [set(formats)] yields its elements; it depends on
    the interpreter's hashing of strings. *)
Variable set_order : list pystr -> list pystr.
Variable up : upstream.

Definition search_packages := Transport.search_packages user_agent up.
Definition get_organizations := Transport.get_organizations user_agent up.

(** [process_datasets], the name of the organization of one dataset. *)
Definition org_name (dataset : json) : result json :=
  (org <- get dataset (str "organization") JNull ;;
   if truthy org then get org (str "title") (JStr sin_organizacion)
   else Ok (JStr sin_organizacion))%py.

(** [process_datasets], the [formats] list of one dataset. *)
Definition formats (dataset : json) : result (list json) :=
  (resources <- get dataset (str "resources") JNull ;;
   if truthy resources
   then items <- iter resources ;;
        mapM (fun r => get r (str "format") (JStr (str "N/A"))) items
   else Ok [])%py.

(** [process_datasets], the description of one dataset:
    [(notes[:150] + '...') if notes else 'Sin descripción']. *)
Definition dataset_descripcion (dataset : json) : result pystr :=
  (notes <- get dataset (str "notes") JNull ;;
   if truthy notes then
     notes' <- get dataset (str "notes") (JStr Ckan2.sin_descripcion) ;;
     match notes' with
     | JStr s => Ok (slice_to 150 s ++ str "...")
     | _ => Raise TypeError
     end
   else Ok Ckan2.sin_descripcion)%py.

(** [process_datasets], the date of one dataset. *)
Definition dataset_fecha (dataset : json) : result json :=
  (modified <- get dataset (str "metadata_modified") (JStr []) ;;
   slice 10 modified)%py.

(** [process_datasets], the body of its loop. *)
Definition process_dataset (dataset : json) : result row :=
  (org <- org_name dataset ;;
   fmts <- formats dataset ;;
   title <- get dataset (str "title") (JStr Ckan2.sin_titulo) ;;
   fecha <- dataset_fecha dataset ;;
   resources <- get dataset (str "resources") (JList []) ;;
   n <- len resources ;;
   fmt_strs <- mapM as_str fmts ;;
   let formatos := match fmts with
                   | [] => str "N/A"
                   | _ => join (str ", ") (set_order fmt_strs)
                   end in
   ident <- get dataset (str "id") (JStr []) ;;
   desc <- dataset_descripcion dataset ;;
   Ok {| titulo := title; organizacion := org; fecha_modificacion := fecha;
         num_recursos := n; formatos := formatos; id := ident;
         descripcion := desc |})%py.

(** [process_datasets] *)
Definition process_datasets (datasets_data : json) : result (list row) :=
  (if negb (truthy datasets_data) then Ok [] else
   present <- has_results datasets_data ;;
   if negb present then Ok [] else
   datasets <- item_results datasets_data ;;
   items <- iter datasets ;;
   mapM process_dataset items)%py.

(** The filters of the search page: [org_filter] is ["Todas"] or the name
    of an organization; the format is searched for in [formatos]. *)
Definition apply_filters (org_filter : pystr) (format_filter : format_choice)
           (df : list row) : list row :=
  let df_filtered := df in
  let df_filtered :=
    if negb (pystr_eqb org_filter (str "Todas"))
    then filter (fun r => match organizacion r with
                          | JStr s => pystr_eqb s org_filter
                          | _ => false
                          end) df_filtered
    else df_filtered in
  let df_filtered :=
    if negb (pystr_eqb (format_label format_filter) (str "Todos"))
    then filter (fun r => contains (formatos r) (format_label format_filter)) df_filtered
    else df_filtered in
  df_filtered.

(** The search page of [main]: the rows it shows, [None] when it warns
    that nothing was found. *)
Definition buscar_datasets (query : pystr) (rows : Z) (org_filter : pystr)
           (format_filter : format_choice) : M (option (list row)) :=
  results <- search_packages query rows ;;
  found <- (if truthy results
            then r <- lift (get results (str "results") JNull) ;; ret (truthy r)
            else ret false) ;;
  if found then
    df <- lift (process_datasets results) ;;
    count <- lift (get results (str "count") (JInt 0)) ;;
    print "Encontrados {} datasets (mostrando {})" [count; JInt (Z.of_nat (length df))] ;;;
    ret (Some (apply_filters org_filter format_filter df))
  else
    print "No se encontraron resultados para tu busqueda." [] ;;;
    ret None.

(** The organization page of [main]: [orgs_sorted] and [top_10]. *)
Definition orgs_sorted (orgs : json) : result (list json) :=
  Ckan2.sorted_by_package_count orgs.

Definition top_10 (orgs : json) : result (list json) :=
  (l <- orgs_sorted orgs ;; Ok (firstn 10 l))%py.
End Dashboard.

End App.

(** ** Vocabulary of the properties *)

Module Spec.
Import Py World.

(** The characters a file name may hold: alphanumerics, hyphen, underscore
    and dot. *)
Definition allowed (U : unicode) (c : char) : bool :=
  isalnum U c || existsb (N.eqb c) [hyphen; underscore; dot].

(** The result set of a search result: [result.get('results', [])]. *)
Definition result_set (result : json) : list json :=
  match get result (str "results") (JList []) with
  | Ok (JList l) => l
  | _ => []
  end.

(** The request did not bring a JSON document. *)
Definition request_failed (r : response) : bool :=
  match r with
  | Text (Some _) => false
  | _ => true
  end.

(** The result set in the reply of the catalogue: that of the [result]
    member of an envelope that says [success]. *)
Definition reply_result_set (r : response) : list json :=
  match r with
  | Text (Some envelope) =>
      match get envelope (str "success") JNull, get envelope (str "result") JNull with
      | Ok success, Ok result => if truthy success then result_set result else []
      | _, _ => []
      end
  | _ => []
  end.

(** A field of the catalogue that holds a text or null. *)
Definition text_or_null (v : json) : Prop :=
  match v with
  | JNull | JStr _ => True
  | _ => False
  end.

(** The characters [clean_filename] keeps in its first pass. *)
Definition kept (U : unicode) (c : char) : bool :=
  isalnum U c || existsb (N.eqb c) [sp; hyphen; underscore; dot].

(** The dataset count of an organization of the catalogue: the integer
    under [package_count], 0 when it has none. *)
Definition count (x : json) : Z :=
  match x with
  | JObj members =>
      match lookup (str "package_count") members with
      | Some (JInt n) => n
      | _ => 0%Z
      end
  | _ => 0%Z
  end.

(** An organization as the catalogue lists it: an object whose
    [package_count], when it has one, is an integer. *)
Definition organization (x : json) : Prop :=
  exists members,
    x = JObj members /\
    (lookup (str "package_count") members = None \/
     exists n, lookup (str "package_count") members = Some (JInt n)).

(** The two date lines of the details view, for a date of creation and a
    date of modification that are texts: the first 10 characters of each,
    and no line for an empty one. *)
Definition date_lines (created modified : pystr) : list event :=
  match created with
  | [] => []
  | _ => [Out "Creado: {}" [JStr (slice_to 10 created)]]
  end ++
  match modified with
  | [] => []
  | _ => [Out "Actualizado: {}" [JStr (slice_to 10 modified)]]
  end.

Section Orders.
Context {A : Type}.
Variable key : A -> Z.

Definition ascending (a b : A) : Prop := (key a <= key b)%Z.
Definition descending (a b : A) : Prop := (key b <= key a)%Z.
End Orders.

End Spec.

(** ** Inputs of the examples *)

Module Examples.
Import Py World.

Definition w0 : session := {| current_datasets := JList []; stdout := [] |}.

Definition recurso_estaciones : json :=
  JObj [ (str "url", JStr (str "https://cdn.buenosaires.gob.ar/estaciones.csv"));
         (str "name", JStr (str "Estaciones de bicicletas publicas 2023"));
         (str "format", JStr (str "CSV")) ].

Definition dataset_estaciones : json := JStr (str "estaciones-bicicletas-publicas").

Definition dataset_subte : json :=
  JObj [ (str "id", JStr (str "subte-estaciones"));
         (str "notes", JStr (str "Datos de subte"));
         (str "metadata_modified", JStr (str "2023-05-17T10:20:30.000000"));
         (str "resources", JList [ JObj [ (str "format", JStr (str "csv")) ] ]) ].

(** A catalogue that answers every call with [success: false]. *)
Definition up_api_failure (msg : pystr) : upstream :=
  fun _ => Text (Some (JObj [ (str "success", JBool false);
                              (str "error", JStr msg) ])).

(** A catalogue that answers every search with two datasets. *)
Definition two_results : json :=
  JObj [ (str "count", JInt 2);
         (str "results", JList [ JObj [ (str "id", JStr (str "a")) ];
                                 JObj [ (str "id", JStr (str "b")) ] ]) ].

Definition up_two_results : upstream :=
  fun _ => Text (Some (JObj [ (str "success", JBool true);
                              (str "result", two_results) ])).

(** A catalogue that answers every call with the details of one dataset. *)
Definition up_detail : upstream :=
  fun _ => Text (Some (JObj [
    (str "success", JBool true);
    (str "result",
     JObj [ (str "name", JStr (str "subte-estaciones"));
            (str "metadata_created", JStr (str "2020-01-02T03:04:05.000000"));
            (str "metadata_modified", JStr (str "2023-05"));
            (str "resources", JList [ JObj [ (str "format", JStr (str "csv")) ] ]) ]) ])).

(** A server that answers every call with status 500. *)
Definition up_http_error : upstream :=
  fun _ => Fails (HTTPError 500 (str "Internal Server Error")).

Definition org (name : string) (package_count : Z) : json :=
  JObj [ (str "name", JStr (str name)); (str "package_count", JInt package_count) ].

Definition orgs_ejemplo : list json :=
  [ org "salud" 12; org "transporte" 30; org "cultura" 12 ].

End Examples.

(** ** [ckan2.py]: the rest of the menu of the explorer *)

Module Menu.
Import Py World.
Local Open Scope io_scope.

(** [v[i]] for an index [i >= 0]. *)
Definition item (v : json) (i : nat) : result json :=
  match v with
  | JList l => match nth_error l i with
               | Some x => Ok x
               | None => Raise (OtherException (str "IndexError"))
               end
  | JStr s => match nth_error s i with
              | Some c => Ok (JStr [c])
              | None => Raise (OtherException (str "IndexError"))
              end
  | JObj _ => Raise KeyError
  | _ => Raise TypeError
  end.

(** [v[k]] for a key [k]. *)
Definition getitem (v : json) (k : pystr) : result json :=
  match v with
  | JObj m => match lookup k m with
              | Some x => Ok x
              | None => Raise KeyError
              end
  | _ => Raise TypeError
  end.

(** [isinstance(e, ValueError)] *)
Definition is_value_error (e : exn) : bool :=
  match e with
  | ValueError | JSONDecodeError | UnicodeDecodeError => true
  | _ => false
  end.

(** [try: body except ValueError: handler] *)
Definition try_value_error {A} (body handler : M A) : M A :=
  fun w => match body w with
           | (Raise e, w') => if is_value_error e then handler w' else (Raise e, w')
           | done => done
           end.

(** [self.current_datasets] *)
Definition read_current_datasets : M json :=
  fun w => (Ok (current_datasets w), w).

(** [int(input(prompt))]: the prompt is written and the number the user
    typed is returned; [None] stands for a text that [int] refuses. *)
Definition input_int (prompt : string) (values : list json) (typed : option Z) : M Z :=
  print prompt values ;;;
  match typed with
  | Some z => ret z
  | None => raise ValueError
  end.

(** ["-" * n] *)
Fixpoint dashes (n : nat) : string :=
  match n with
  | O => EmptyString
  | S n' => String "-" (dashes n')
  end.

Section Explorer.
Variable U : unicode.
Variable D : Datetime.library.
Variable up : upstream.

(** [BuenosAiresCKAN.get_package_list] *)
Definition get_package_list : M json :=
  result <- Transport.make_request Ckan2.user_agent up (str "package_list") [] ;;
  ret (if truthy result then result else JList []).

(** [MenuExplorer.listar_recientes] *)
Definition listar_recientes : M unit :=
  print "DATASETS RECIENTES" [] ;;;
  print (dashes 30) [] ;;;
  result <- Ckan2.search_packages up [] 15 ;;
  if negb (truthy result) then print "No se pudieron obtener los datasets." [] else
  datasets <- lift (get result (str "results") (JList [])) ;;
  set_current_datasets datasets ;;;
  Ckan2.mostrar_lista_datasets U D datasets.

(** [MenuExplorer.buscar_por_organizacion] *)
Definition buscar_por_organizacion (org_name : pystr) : M unit :=
  let query := str "organization:" ++ org_name in
  result <- Ckan2.search_packages up query 20 ;;
  if truthy result then
    datasets <- lift (get result (str "results") (JList [])) ;;
    set_current_datasets datasets ;;;
    print "Datasets de la organizacion:" [] ;;;
    Ckan2.mostrar_lista_datasets U D datasets
  else ret tt.

Definition mostrar_org (i : Z) (org : json) : M unit :=
  name0 <- lift (get org (str "name") (JStr (str "Sin nombre"))) ;;
  name <- lift (get org (str "display_name") name0) ;;
  count <- lift (get org (str "package_count") (JInt 0)) ;;
  print "{}. {} ({} datasets)" [JInt i; name; count].

(** [MenuExplorer.ver_por_organizacion], with the number the user types. *)
Definition ver_por_organizacion (typed : option Z) : M unit :=
  print "DATASETS POR ORGANIZACION" [] ;;;
  print (dashes 40) [] ;;;
  print "Obteniendo organizaciones..." [] ;;;
  orgs <- Ckan2.get_organizations up ;;
  if negb (truthy orgs) then print "No se pudieron obtener las organizaciones." [] else
  orgs_sorted <- lift (Ckan2.orgs_sorted orgs) ;;
  print "Top 10 organizaciones con mas datasets:" [] ;;;
  Ckan2.for_each mostrar_org 1%Z orgs_sorted ;;;
  try_value_error
    (choice <- input_int "Selecciona una organizacion (1-{}): "
                         [JInt (Z.of_nat (length orgs_sorted))] typed ;;
     if ((1 <=? choice) && (choice <=? Z.of_nat (length orgs_sorted)))%Z then
       org <- lift (item (JList orgs_sorted) (Z.to_nat (choice - 1))) ;;
       org_name <- lift (getitem org (str "name")) ;;
       name <- lift (as_str org_name) ;;
       buscar_por_organizacion name
     else ret tt)
    (print "Seleccion invalida." []).

(** [MenuExplorer.ver_detalles_dataset], with the number the user types. *)
Definition ver_detalles_dataset (typed : option Z) : M unit :=
  datasets <- read_current_datasets ;;
  if negb (truthy datasets) then print "Primero debes buscar datasets." [] else
  try_value_error
    (n <- lift (len datasets) ;;
     choice <- input_int "Selecciona un dataset (1-{}): " [JInt (Z.of_nat n)] typed ;;
     if ((1 <=? choice) && (choice <=? Z.of_nat n))%Z then
       dataset <- lift (item datasets (Z.to_nat (choice - 1))) ;;
       Ckan2.mostrar_detalles_completos U up dataset
     else ret tt)
    (print "Seleccion invalida." []).

Definition listar_recurso (i : Z) (resource : json) : M unit :=
  name0 <- lift (get resource (str "name") JNull) ;;
  description <- lift (get resource (str "description") JNull) ;;
  let name := or_else (or_else name0 description)
                      (JStr (str "Recurso " ++ str_of_int i)) in
  format_type <- lift (Ckan2.format_upper U resource) ;;
  print "{}. {} ({})" [JInt i; name; JStr format_type].

(** [MenuExplorer.descargar_recursos_dataset], with the number the user
    types. *)
Definition descargar_recursos_dataset (typed : option Z) (dataset : json) : M unit :=
  id <- lift (get dataset (str "id") JNull) ;;
  name <- lift (get dataset (str "name") JNull) ;;
  let package_id := or_else id name in
  print "Obteniendo recursos de: {}" [package_id] ;;;
  detailed_info <- Ckan2.get_package_info up package_id ;;
  if negb (truthy detailed_info)
  then print "No se pudo obtener informacion del dataset." [] else
  resources <- lift (get detailed_info (str "resources") (JList [])) ;;
  if negb (truthy resources)
  then print "Este dataset no tiene recursos para descargar." [] else
  title <- lift (get detailed_info (str "title") JNull) ;;
  print "RECURSOS DE: {}" [title] ;;;
  print (dashes 50) [] ;;;
  items <- lift (iter resources) ;;
  Ckan2.for_each listar_recurso 1%Z items ;;;
  n <- lift (len resources) ;;
  print "{}. Descargar todos" [JInt (Z.of_nat n + 1)] ;;;
  print "0. Volver" [] ;;;
  try_value_error
    (choice <- input_int "Selecciona que descargar (0-{}): "
                         [JInt (Z.of_nat n + 1)] typed ;;
     if (choice =? 0)%Z then ret tt
     else if (choice =? Z.of_nat n + 1)%Z then
       Ckan2.for_each
         (fun _ resource =>
            dataset_name <- lift (get detailed_info (str "name") JNull) ;;
            Ckan2.descargar_recurso_individual U up resource dataset_name)
         1%Z items
     else if ((1 <=? choice) && (choice <=? Z.of_nat n))%Z then
       resource <- lift (item resources (Z.to_nat (choice - 1))) ;;
       dataset_name <- lift (get detailed_info (str "name") JNull) ;;
       Ckan2.descargar_recurso_individual U up resource dataset_name
     else ret tt)
    (print "Seleccion invalida." []).

(** [MenuExplorer.descargar_recursos], with the two numbers the user
    types. *)
Definition descargar_recursos (typed typed' : option Z) : M unit :=
  datasets <- read_current_datasets ;;
  if negb (truthy datasets) then print "Primero debes buscar datasets." [] else
  try_value_error
    (n <- lift (len datasets) ;;
     choice <- input_int "Selecciona un dataset para descargar (1-{}): "
                         [JInt (Z.of_nat n)] typed ;;
     if ((1 <=? choice) && (choice <=? Z.of_nat n))%Z then
       dataset <- lift (item datasets (Z.to_nat (choice - 1))) ;;
       descargar_recursos_dataset typed' dataset
     else ret tt)
    (print "Seleccion invalida." []).
End Explorer.

End Menu.

(** ** [ckan2.py]: the views of the real-time services *)

Module Realtime.
Import Py World.
Local Open Scope io_scope.

Definition transport_api : pystr := str "https://api-transporte.buenosaires.gob.ar".

Section Views.
Variable up : upstream.

Definition make_api_request := Transport.make_api_request Ckan2.user_agent up.

(** [RealTimeAPI.get_subte_status] *)
Definition get_subte_status : M json :=
  make_api_request (transport_api ++ str "/subte/serviceAlerts") [].

(** [RealTimeAPI.get_traffic_info] *)
Definition get_traffic_info : M json :=
  make_api_request (transport_api ++ str "/transito/cortes") [].

Definition mostrar_alerta (i : Z) (alert : json) : M unit :=
  alert_info <- lift (get alert (str "alert") (JObj [])) ;;
  description_text <- lift (get alert_info (str "description_text") (JObj [])) ;;
  description <- lift (get description_text (str "translation") (JList [])) ;;
  Ckan2.when (truthy description)
    (first <- lift (Menu.item description 0) ;;
     text <- lift (get first (str "text") (JStr Ckan2.sin_descripcion)) ;;
     shown <- lift (slice 100 text) ;;
     print "{}. {}..." [JInt i; shown]).

(** [MenuExplorer.mostrar_subte_status] *)
Definition mostrar_subte_status : M unit :=
  print "ESTADO DEL SUBTE" [] ;;;
  print (Menu.dashes 25) [] ;;;
  print "Obteniendo estado de lineas..." [] ;;;
  subte_data <- get_subte_status ;;
  if negb (truthy subte_data) then
    print "No se pudo obtener informacion del subte" [] ;;;
    print "Intenta acceder directamente a: https://api-transporte.buenosaires.gob.ar" []
  else
    alerts <- lift (get subte_data (str "entity") (JList [])) ;;
    if truthy alerts then
      n <- lift (len alerts) ;;
      print "Alertas activas ({}):" [JInt (Z.of_nat n)] ;;;
      first <- lift (slice 5 alerts) ;;
      items <- lift (iter first) ;;
      Ckan2.for_each mostrar_alerta 1%Z items
    else
      print "No hay alertas activas en el sistema de subte" [] ;;;
      print "Todas las lineas funcionan con normalidad" [].

Definition mostrar_corte (i : Z) (corte : json) : M unit :=
  calle <- lift (get corte (str "calle") (JStr (str "N/A"))) ;;
  motivo <- lift (get corte (str "motivo") (JStr (str "Sin especificar"))) ;;
  desde <- lift (get corte (str "desde") (JStr [])) ;;
  hasta <- lift (get corte (str "hasta") (JStr [])) ;;
  print "{}. {}" [JInt i; calle] ;;;
  Ckan2.when (truthy desde || truthy hasta)
    (print "Desde: {} - Hasta: {}" [desde; hasta]) ;;;
  print "Motivo: {}" [motivo].

(** [MenuExplorer.mostrar_estado_transito] *)
Definition mostrar_estado_transito : M unit :=
  print "ESTADO DEL TRANSITO" [] ;;;
  print (Menu.dashes 30) [] ;;;
  print "Obteniendo informacion de transito..." [] ;;;
  traffic_data <- get_traffic_info ;;
  if negb (truthy traffic_data) then
    print "No se pudo obtener informacion de transito" [] ;;;
    print "Intenta acceder directamente a: https://api-transporte.buenosaires.gob.ar" []
  else
    cortes <- lift (match traffic_data with
                    | JObj _ => get traffic_data (str "cortes") (JList [])
                    | _ => Ok (JList [])
                    end) ;;
    if truthy cortes then
      n <- lift (len cortes) ;;
      print "Cortes de transito activos ({}):" [JInt (Z.of_nat n)] ;;;
      first <- lift (slice 10 cortes) ;;
      items <- lift (iter first) ;;
      Ckan2.for_each mostrar_corte 1%Z items
    else
      print "No hay cortes de transito reportados" [] ;;;
      print "El trafico fluye con normalidad" [].
End Views.

End Realtime.

(** ** [ba_explorer_app.py]: its [RealTimeAPI] *)

Module AppRealtime.
Import Py World.
Local Open Scope io_scope.

(** [RealTimeAPI.make_api_request] of the dashboard: a status 401 or 429
    gives a warning in place of the error message. *)
Definition make_api_request (up : upstream) (url : pystr) (params : list (pystr * json))
  : M json :=
  try_except
    (fetch_json up (Transport.realtime_request App.user_agent url params))
    [ (CHTTPError, fun e =>
         (if (exn_code e =? 401)%Z then print "API requiere autenticacion" []
          else if (exn_code e =? 429)%Z then print "Limite de requests excedido" []
          else print "Error HTTP {}: {}" (exn_values e)) ;;;
         ret JNull);
      (CException, fun e => print "Error al conectar con API: {}" [] ;;; ret JNull) ].

End AppRealtime.

(** ** Vocabulary of the effects *)

Module Effects.
Import Py World.

(** What a computation may do to the session: keep [current_datasets] and
    add lines [out] to the output, with [Q out]. *)
Definition writes {A} (Q : list event -> Prop) (m : M A) : Prop :=
  forall w, exists out,
    snd (m w) = {| current_datasets := current_datasets w; stdout := stdout w ++ out |}
    /\ Q out.

(** The line is the one of the format string [text]. *)
Definition is_line (text : string) (e : event) : bool :=
  match e with
  | Out text' _ => String.eqb text text'
  end.

(** [Q] holds of no output and of two outputs one after the other. *)
Definition additive (Q : list event -> Prop) : Prop :=
  Q [] /\ forall o1 o2, Q o1 -> Q o2 -> Q (o1 ++ o2).

(** The [result] member of the reply of the catalogue, when the reply is an
    envelope that says [success]; [None] otherwise. *)
Definition reply_result (r : response) : json :=
  match r with
  | Text (Some envelope) =>
      match get envelope (str "success") JNull, get envelope (str "result") JNull with
      | Ok success, Ok result => if truthy success then result else JNull
      | _, _ => JNull
      end
  | _ => JNull
  end.

(** The reply of the catalogue to a search. *)
Definition search_reply (up : upstream) (query : pystr) (rows : Z) : json :=
  reply_result (up (Transport.catalog_request Ckan2.user_agent (str "package_search")
                      (Transport.search_params query rows))).

(** No line of [out] announces a download. *)
Definition no_download (out : list event) : Prop :=
  Forall (fun e => is_line "Descargando: {}" e = false) out.

End Effects.

(** ** More inputs of the examples *)

Module MoreExamples.
Import Py World Examples.

(** A session that holds one dataset. *)
Definition w1 : session := {| current_datasets := JList [dataset_subte]; stdout := [] |}.

Definition recurso_sin_url : json := JObj [ (str "name", JStr (str "estaciones")) ].

Definition alerta (text : string) : json :=
  JObj [ (str "alert",
          JObj [ (str "description_text",
                  JObj [ (str "translation",
                          JList [ JObj [ (str "text", JStr (str text)) ] ]) ]) ]) ].

Definition seis_alertas : json :=
  JList [ alerta "Linea A demorada"; alerta "Linea B demorada";
          alerta "Linea C demorada"; alerta "Linea D demorada";
          alerta "Linea E demorada"; alerta "Linea H demorada" ].

(** A feed of the subway with six alerts. *)
Definition up_subte : upstream :=
  fun _ => Text (Some (JObj [ (str "entity", seis_alertas) ])).

Definition un_corte : json :=
  JList [ JObj [ (str "calle", JStr (str "Av. Corrientes"));
                 (str "motivo", JStr (str "Obra")) ] ].

(** A traffic service with one closure. *)
Definition up_transito : upstream :=
  fun _ => Text (Some (JObj [ (str "cortes", un_corte) ])).

(** A catalogue that answers every call with three organizations. *)
Definition up_orgs : upstream :=
  fun _ => Text (Some (JObj [ (str "success", JBool true);
                              (str "result", JList orgs_ejemplo) ])).

(** A service that answers with a list where an object is expected. *)
Definition up_list : upstream :=
  fun _ => Text (Some (JList [ JInt 1 ])).

(** The row of the dashboard for [dataset_subte]. *)
Definition fila_subte : App.row :=
  {| App.titulo := JStr Ckan2.sin_titulo;
     App.organizacion := JStr App.sin_organizacion;
     App.fecha_modificacion := JStr (str "2023-05-17");
     App.num_recursos := 1;
     App.formatos := str "csv";
     App.id := JStr (str "subte-estaciones");
     App.descripcion := str "Datos de subte..." |}.

(** Twelve organizations; two of them have one and two datasets. *)
Definition doce_orgs : list json :=
  [ org "cultura" 3; org "salud" 12; org "educacion" 7; org "transporte" 12;
    org "ambiente" 1; org "hacienda" 9; org "jefatura" 30; org "justicia" 4;
    org "turismo" 2; org "desarrollo" 8; org "seguridad" 5; org "legislatura" 6 ].

(** A resource whose format is a media type. *)
Definition recurso_text_csv : json :=
  JObj [ (str "url", JStr (str "https://cdn.buenosaires.gob.ar/datos"));
         (str "name", JStr (str "datos"));
         (str "format", JStr (str "text/csv")) ].

(** A world whose servers answer every request, and where a file cannot
    be opened in a directory below [downloads], which does not exist. *)
Definition up_sin_directorio : upstream :=
  fun req =>
    match req_target req with
    | Some filepath =>
        if contains (skipn 10 filepath) [slash]
        then Fails (OtherException (str "FileNotFoundError"))
        else Text None
    | None => Text None
    end.

End MoreExamples.

(** * Properties *)

(** ** Text primitives *)

Module TextFacts.
Import Py.

Lemma Forall_dropwhile (P : char -> Prop) p s :
  Forall P s -> Forall P (dropwhile p s).
Proof.
  induction 1 as [|c s Hc Hs IH]; simpl; [constructor|].
  destruct (p c); [exact IH | constructor; assumption].
Qed.

Lemma dropwhile_none p s :
  Forall (fun c => p c = false) s -> dropwhile p s = s.
Proof.
  destruct 1 as [|c s Hc Hs]; simpl; [reflexivity|].
  rewrite Hc. reflexivity.
Qed.

Lemma Forall_strip U (P : char -> Prop) s :
  Forall P s -> Forall P (strip U s).
Proof.
  intros H. unfold strip.
  apply Forall_rev, Forall_dropwhile, Forall_rev, Forall_dropwhile, H.
Qed.

Lemma strip_none U s :
  Forall (fun c => isspace U c = false) s -> strip U s = s.
Proof.
  intros H. unfold strip.
  rewrite (dropwhile_none _ _ H).
  rewrite (dropwhile_none (isspace U) _ (Forall_rev H)).
  apply rev_involutive.
Qed.

Lemma Forall_split_from U (P : char -> Prop) s : forall word,
  Forall P word -> Forall P s -> Forall (Forall P) (split_from U word s).
Proof.
  induction s as [|c s IH]; intros word Hw Hs; simpl.
  - destruct word; constructor; [apply Forall_rev, Hw | constructor].
  - inversion Hs as [|? ? Hc Hs']; subst.
    destruct (isspace U c).
    + destruct word.
      * apply IH; [constructor | assumption].
      * constructor; [apply Forall_rev, Hw | apply IH; [constructor | assumption]].
    + apply IH; [constructor; assumption | assumption].
Qed.

Lemma split_from_none U s : forall word,
  Forall (fun c => isspace U c = false) s ->
  split_from U word s = match rev word ++ s with [] => [] | w => [w] end.
Proof.
  induction s as [|c s IH]; intros word Hs; simpl.
  - rewrite app_nil_r. destruct word as [|a word]; [reflexivity|].
    simpl. destruct (rev word ++ [a]) eqn:E; [|reflexivity].
    destruct (rev word); discriminate.
  - inversion Hs as [|? ? Hc Hs']; subst. rewrite Hc.
    rewrite (IH (c :: word) Hs'). simpl. rewrite <- app_assoc. reflexivity.
Qed.

Lemma Forall_join (P : char -> Prop) sep parts :
  Forall P sep -> Forall (Forall P) parts -> Forall P (join sep parts).
Proof.
  intros Hsep. induction 1 as [|p ps Hp Hps IH]; simpl; [constructor|].
  destruct ps as [|q ps]; [exact Hp|].
  apply Forall_app; split; [exact Hp|].
  apply Forall_app; split; [exact Hsep | exact IH].
Qed.

Lemma replace1_none a b s :
  Forall (fun c => c <> a) s -> replace1 a b s = s.
Proof.
  induction 1 as [|c s Hc Hs IH]; simpl; [reflexivity|].
  fold (replace1 a b s). rewrite IH.
  destruct (N.eqb_spec c a); [contradiction | reflexivity].
Qed.

Lemma Forall_slice (A : Type) (P : A -> Prop) n (l : list A) :
  Forall P l -> Forall P (firstn n l).
Proof.
  intros H. rewrite <- (firstn_skipn n l) in H.
  apply Forall_app in H. tauto.
Qed.

Lemma pystr_eqb_eq a b : pystr_eqb a b = true <-> a = b.
Proof.
  unfold pystr_eqb. destruct (list_eq_dec N.eq_dec a b); split; congruence.
Qed.

Lemma pystr_eqb_refl a : pystr_eqb a a = true.
Proof. apply pystr_eqb_eq. reflexivity. Qed.

End TextFacts.

(** ** The names of downloaded files *)

Module FilenameFacts.
Import Py World Spec TextFacts.

Section Filename.
Variable U : unicode.

Lemma kept_underscore : kept U underscore = true.
Proof. unfold kept. simpl. apply orb_true_r. Qed.

Lemma kept_sp : kept U sp = true.
Proof. unfold kept. simpl. apply orb_true_r. Qed.

Lemma kept_allowed c : kept U c = true -> c <> sp -> allowed U c = true.
Proof.
  unfold kept, allowed. simpl. intros H Hsp.
  destruct (isalnum U c); [reflexivity|]. simpl in *.
  destruct (N.eqb_spec c sp); [contradiction | exact H].
Qed.

Lemma allowed_kept c : allowed U c = true -> kept U c = true.
Proof.
  unfold kept, allowed. simpl. intros H.
  destruct (isalnum U c); [reflexivity|]. simpl in *.
  rewrite H. apply orb_true_r.
Qed.

(** Every character of a cleaned name is allowed and is not a space. *)
Lemma clean_filename_chars s :
  Forall (fun c => allowed U c = true /\ c <> sp) (Ckan2.clean_filename U s).
Proof.
  unfold Ckan2.clean_filename, slice_to.
  apply Forall_slice.
  assert (Hkept : Forall (fun c => kept U c = true)
                    (join [sp] (split U (strip U
                       (map (fun char =>
                               if isalnum U char
                                  || existsb (N.eqb char) [sp; hyphen; underscore; dot]
                               then char else underscore) s))))).
  { apply Forall_join; [repeat constructor; apply kept_sp|].
    apply Forall_split_from; [constructor|].
    apply Forall_strip.
    apply Forall_forall. intros c Hc. apply in_map_iff in Hc.
    destruct Hc as [c0 [Hc0 _]]. fold (kept U c0) in Hc0.
    destruct (kept U c0) eqn:E; subst; [exact E | apply kept_underscore]. }
  unfold replace1. apply Forall_forall. intros c Hc.
  apply in_map_iff in Hc. destruct Hc as [c0 [Hc0 Hin]].
  rewrite Forall_forall in Hkept. specialize (Hkept _ Hin).
  destruct (N.eqb_spec c0 sp); subst.
  - split; [unfold allowed; simpl; apply orb_true_r | discriminate].
  - split; [apply kept_allowed; assumption | assumption].
Qed.

Lemma clean_filename_length s : length (Ckan2.clean_filename U s) <= 50.
Proof. unfold Ckan2.clean_filename, slice_to. apply firstn_le_length. Qed.

Lemma clean_filename_allowed s :
  Forall (fun c => allowed U c = true) (Ckan2.clean_filename U s).
Proof.
  eapply Forall_impl; [|apply clean_filename_chars]. simpl. tauto.
Qed.
End Filename.

End FilenameFacts.

Module Filenames.
Import Py World Spec Examples TextFacts FilenameFacts.

(** A resource with a URL, whose name, description and format are texts
    (or missing, or null for the first two), gets a file name. *)
Lemma download_name_defined (U : unicode) members u dataset_name :
  lookup (str "url") members = Some (JStr u) -> u <> [] ->
  (forall v, lookup (str "name") members = Some v -> text_or_null v) ->
  (forall v, lookup (str "description") members = Some v -> text_or_null v) ->
  (forall v, lookup (str "format") members = Some v -> exists s, v = JStr s) ->
  text_or_null dataset_name ->
  exists filename,
    Ckan2.download_name U (JObj members) dataset_name = Ok (Some (JStr u, filename)).
Proof.
  intros Hurl Hu Hname Hdesc Hfmt Hds.
  unfold Ckan2.download_name, get. rewrite Hurl. cbn [bind].
  destruct u as [|c u]; [contradiction|]. cbn [truthy negb].
  assert (Hn : exists s, or_else
                 (or_else match lookup (str "name") members with
                          | Some v => v | None => JNull end
                          match lookup (str "description") members with
                          | Some v => v | None => JNull end)
                 (JStr (str "recurso")) = JStr s).
  { destruct (lookup (str "name") members) as [n|].
    - specialize (Hname n eq_refl).
      destruct (lookup (str "description") members) as [d|].
      + specialize (Hdesc d eq_refl).
        destruct n as [| | |[|? ?]| |], d as [| | |[|? ?]| |];
          try contradiction; eexists; reflexivity.
      + destruct n as [| | |[|? ?]| |]; try contradiction; eexists; reflexivity.
    - destruct (lookup (str "description") members) as [d|].
      + specialize (Hdesc d eq_refl).
        destruct d as [| | |[|? ?]| |]; try contradiction; eexists; reflexivity.
      + eexists; reflexivity. }
  destruct Hn as [name_str Hn]. rewrite Hn.
  assert (Hd : exists s, or_else dataset_name (JStr (str "dataset")) = JStr s).
  { destruct dataset_name as [| | |[|? ?]| |]; try contradiction; eexists; reflexivity. }
  destruct Hd as [dataset_str Hd]. rewrite Hd.
  destruct (lookup (str "format") members) as [f|].
  - destruct (Hfmt f eq_refl) as [s ->]. cbn [bind as_str]. eexists; reflexivity.
  - cbn [bind as_str]. eexists; reflexivity.
Qed.

Lemma as_str_text v s : as_str v = Ok s -> v = JStr s.
Proof. destruct v; simpl; intros H; try discriminate. injection H as <-. reflexivity. Qed.

(** C1, as the code has it: whenever [descargar_recurso_individual] hands a
    file name to the downloader, the name is [safe_dataset + "_" +
    safe_name] followed by an extension, where [safe_dataset] is the
    sanitized name of the dataset (of "dataset" when it has none) and
    [safe_name] the sanitized name of the resource (of its description when
    it has no name, of "recurso" when it has neither); each of the two has
    at most 50 characters, all of them alphanumerics, hyphens, underscores
    or dots, whatever the input strings were; the extension is a dot and
    the lower-cased format when the resource has a format and [safe_name]
    does not end with that already, and empty otherwise; so the name has at
    most 101 characters besides the extension. *)
Theorem download_name_components (U : unicode) (resource dataset_name url : json)
    (filename : pystr) :
  Ckan2.download_name U resource dataset_name = Ok (Some (url, filename)) ->
  exists (name description : json) (name_str dataset_str fmt : pystr),
    get resource (str "url") JNull = Ok url /\
    get resource (str "name") JNull = Ok name /\
    get resource (str "description") JNull = Ok description /\
    or_else (or_else name description) (JStr (str "recurso")) = JStr name_str /\
    or_else dataset_name (JStr (str "dataset")) = JStr dataset_str /\
    get resource (str "format") (JStr []) = Ok (JStr fmt) /\
    let safe_dataset := Ckan2.clean_filename U dataset_str in
    let safe_name := Ckan2.clean_filename U name_str in
    let extension :=
      match lower U fmt with
      | [] => []
      | _ => if endswith safe_name (dot :: lower U fmt) then [] else dot :: lower U fmt
      end in
    filename = safe_dataset ++ [underscore] ++ safe_name ++ extension /\
    length safe_dataset <= 50 /\ length safe_name <= 50 /\
    Forall (fun c => allowed U c = true) safe_dataset /\
    Forall (fun c => allowed U c = true) safe_name /\
    length filename <= 101 + length extension.
Proof.
  unfold Ckan2.download_name. intros H.
  destruct (get resource (str "url") JNull) as [url0|] eqn:Eurl; simpl in H; [|discriminate].
  destruct (truthy url0); simpl in H; [|discriminate].
  destruct (get resource (str "name") JNull) as [name0|]; simpl in H; [|discriminate].
  destruct (get resource (str "description") JNull) as [description|];
    simpl in H; [|discriminate].
  destruct (get resource (str "format") (JStr [])) as [fmt|]; simpl in H; [|discriminate].
  destruct fmt as [| | |f| |]; simpl in H; try discriminate.
  destruct (as_str (or_else (or_else name0 description) (JStr (str "recurso"))))
    as [name_str|] eqn:En; simpl in H; [|discriminate].
  destruct (as_str (or_else dataset_name (JStr (str "dataset"))))
    as [dataset_str|] eqn:Ed; simpl in H; [|discriminate].
  apply as_str_text in En. apply as_str_text in Ed.
  pose proof (clean_filename_length U name_str) as Ln.
  pose proof (clean_filename_length U dataset_str) as Ld.
  exists name0, description, name_str, dataset_str, f.
  assert (Hurl : url0 = url /\
                 filename = Ckan2.clean_filename U dataset_str ++ [underscore]
                            ++ Ckan2.clean_filename U name_str
                            ++ match lower U f with
                               | [] => []
                               | _ => if endswith (Ckan2.clean_filename U name_str)
                                                  (dot :: lower U f)
                                      then [] else dot :: lower U f
                               end).
  { destruct (lower U f) as [|c l].
    - cbn [truthy andb] in H. injection H as Hu Hfn. subst url0 filename.
      rewrite app_nil_r. split; reflexivity.
    - cbn [truthy andb] in H.
      destruct (endswith (Ckan2.clean_filename U name_str) (dot :: c :: l));
        cbn [negb] in H; injection H as Hu Hfn; subst url0 filename;
        [rewrite app_nil_r|]; split; reflexivity. }
  destruct Hurl as [-> Hf].
  repeat split; try assumption; try reflexivity; try apply clean_filename_allowed.
  rewrite Hf. rewrite !length_app. cbn [length]. lia.
Qed.

Lemma download_name_components_witness :
  exists (name description : json) (name_str dataset_str fmt : pystr),
    get recurso_estaciones (str "url") JNull
    = Ok (JStr (str "https://cdn.buenosaires.gob.ar/estaciones.csv")) /\
    get recurso_estaciones (str "name") JNull = Ok name /\
    get recurso_estaciones (str "description") JNull = Ok description /\
    or_else (or_else name description) (JStr (str "recurso")) = JStr name_str /\
    or_else dataset_estaciones (JStr (str "dataset")) = JStr dataset_str /\
    get recurso_estaciones (str "format") (JStr []) = Ok (JStr fmt) /\
    let safe_dataset := Ckan2.clean_filename ascii_table dataset_str in
    let safe_name := Ckan2.clean_filename ascii_table name_str in
    let extension :=
      match lower ascii_table fmt with
      | [] => []
      | _ => if endswith safe_name (dot :: lower ascii_table fmt)
             then [] else dot :: lower ascii_table fmt
      end in
    str "estaciones-bicicletas-publicas_Estaciones_de_bicicletas_publicas_2023.csv"
    = safe_dataset ++ [underscore] ++ safe_name ++ extension /\
    length safe_dataset <= 50 /\ length safe_name <= 50 /\
    Forall (fun c => allowed ascii_table c = true) safe_dataset /\
    Forall (fun c => allowed ascii_table c = true) safe_name /\
    length (str "estaciones-bicicletas-publicas_Estaciones_de_bicicletas_publicas_2023.csv")
    <= 101 + length extension.
Proof.
  apply (download_name_components ascii_table recurso_estaciones dataset_estaciones
           (JStr (str "https://cdn.buenosaires.gob.ar/estaciones.csv"))).
  vm_compute. reflexivity.
Defined.

(** A name that has the extension already is left as it is, and the
    sanitized name of the dataset comes first. *)
Example download_name_keeps_extension :
  Ckan2.download_name ascii_table
    (JObj [ (str "url", JStr (str "https://cdn.buenosaires.gob.ar/d"));
            (str "name", JStr (str "Datos.csv"));
            (str "format", JStr (str "CSV")) ])
    (JStr (str "Subte 2023"))
  = Ok (Some (JStr (str "https://cdn.buenosaires.gob.ar/d"), str "Subte_2023_Datos.csv")).
Proof. vm_compute. reflexivity. Qed.

(** C1 as stated fails: the name handed to the downloader for a resource
    named "Estaciones de bicicletas publicas 2023" of the dataset
    "estaciones-bicicletas-publicas" has 73 characters. *)
Lemma download_name_longer_than_50 :
  Ckan2.download_name ascii_table recurso_estaciones dataset_estaciones
  = Ok (Some (JStr (str "https://cdn.buenosaires.gob.ar/estaciones.csv"),
              str "estaciones-bicicletas-publicas_Estaciones_de_bicicletas_publicas_2023.csv"))
  /\ length (str "estaciones-bicicletas-publicas_Estaciones_de_bicicletas_publicas_2023.csv")
     = 73
  /\ ~ (73 <= 50).
Proof.
  split; [vm_compute; reflexivity|]. split; [reflexivity | lia].
Qed.

(** The sanitizer on the inputs the specification singles out. *)
Example clean_filename_scenario :
  Ckan2.clean_filename ascii_table (str "Calle Corrientes #1000 / Datos.csv")
  = str "Calle_Corrientes__1000___Datos.csv"
  /\ Ckan2.clean_filename ascii_table [] = []
  /\ Ckan2.clean_filename ascii_table (str "###") = str "___".
Proof. repeat split; vm_compute; reflexivity. Qed.

Lemma ascii_allowed_not_space c :
  allowed ascii_table c = true -> isspace ascii_table c = false.
Proof.
  unfold allowed, ascii_table, ascii_digit, ascii_upper, ascii_lower,
    hyphen, underscore, dot; simpl.
  repeat match goal with
         | |- context [N.leb ?a ?b] => destruct (N.leb_spec a b)
         | |- context [N.eqb ?a ?b] => destruct (N.eqb_spec a b)
         end; simpl; try reflexivity; try discriminate; lia.
Qed.

(** A name of allowed characters without spaces, at most 50 long, is left
    as it is. *)
Lemma clean_filename_fixed (U : unicode)
  (Hspace : forall c, allowed U c = true -> isspace U c = false) (r : pystr) :
  Forall (fun c => allowed U c = true /\ c <> sp) r ->
  length r <= 50 ->
  Ckan2.clean_filename U r = r.
Proof.
  intros Hchars Hlen.
  assert (Hmap : map (fun char =>
                        if isalnum U char
                           || existsb (N.eqb char) [sp; hyphen; underscore; dot]
                        then char else underscore) r = r).
  { rewrite <- (map_id r) at 2. apply map_ext_in. intros c Hc.
    rewrite Forall_forall in Hchars. destruct (Hchars c Hc) as [Ha _].
    apply allowed_kept in Ha. unfold kept in Ha. rewrite Ha. reflexivity. }
  assert (Hnospace : Forall (fun c => isspace U c = false) r).
  { eapply Forall_impl; [|exact Hchars]. simpl. intros c [Ha _]. auto. }
  assert (Hnosp : Forall (fun c => c <> sp) r).
  { eapply Forall_impl; [|exact Hchars]. simpl. tauto. }
  unfold Ckan2.clean_filename. rewrite Hmap.
  rewrite (strip_none _ _ Hnospace). unfold split.
  rewrite (split_from_none U r [] Hnospace).
  replace (join [sp] match rev [] ++ r with [] => [] | c :: l => [c :: l] end)
    with r by (destruct r; reflexivity).
  rewrite (replace1_none _ _ _ Hnosp).
  unfold slice_to. apply firstn_all2. exact Hlen.
Qed.

(** C10: [clean_filename] is idempotent, given of the character tables
    that no alphanumeric character and none of hyphen, underscore and dot
    is white space. *)
Theorem clean_filename_idempotent (U : unicode)
  (Hspace : forall c, allowed U c = true -> isspace U c = false) (s : pystr) :
  Ckan2.clean_filename U (Ckan2.clean_filename U s) = Ckan2.clean_filename U s.
Proof.
  apply clean_filename_fixed.
  - exact Hspace.
  - apply clean_filename_chars.
  - apply clean_filename_length.
Qed.

Lemma clean_filename_idempotent_witness :
  (forall c, allowed ascii_table c = true -> isspace ascii_table c = false) /\
  Ckan2.clean_filename ascii_table
    (Ckan2.clean_filename ascii_table (str "Calle Corrientes #1000 / Datos.csv"))
  = Ckan2.clean_filename ascii_table (str "Calle Corrientes #1000 / Datos.csv").
Proof.
  split; [exact ascii_allowed_not_space|].
  apply (clean_filename_idempotent ascii_table ascii_allowed_not_space).
Defined.

End Filenames.

(** ** The transport layer and the calls built on it *)

Module TransportFacts.
Import Py World Spec Examples.

Section Client.
Variable user_agent : pystr.
Variable up : upstream.
Hypothesis Hexc : forall req e, up req = Fails e -> isinstance e CException = true.

(** What [make_request] returns and prints, by the reply to its request. *)
Lemma make_request_cases endpoint params w :
  exists v out,
    Transport.make_request user_agent up endpoint params w
    = (Ok v, {| current_datasets := current_datasets w; stdout := stdout w ++ out |}) /\
    match up (Transport.catalog_request user_agent endpoint params) with
    | Text (Some envelope) =>
        match get envelope (str "success") JNull with
        | Ok success =>
            if truthy success
            then get envelope (str "result") JNull = Ok v /\ out = []
            else v = JNull /\
                 exists err,
                   get envelope (str "error") (JStr (str "Error desconocido")) = Ok err /\
                   out = [Out "Error en la API: {}" [err]]
        | Raise _ => v = JNull /\ out = [Out "Error inesperado: {}" []]
        end
    | _ => v = JNull /\ exists text values, out = [Out text values]
    end.
Proof.
  unfold Transport.make_request, try_except, bindM, fetch_json, lift, raise, ret, print.
  destruct (up (Transport.catalog_request user_agent endpoint params))
    as [e|[envelope|]] eqn:Eup.
  - pose proof (Hexc _ _ Eup) as He.
    destruct e; simpl in *; try discriminate;
      eexists; eexists; (split; [reflexivity | split; [reflexivity | eauto]]).
  - destruct envelope as [| | | | |m]; simpl;
      try (eexists; eexists; split; [reflexivity | split; reflexivity]).
    destruct (truthy _) eqn:Et; simpl.
    + eexists; exists []; rewrite app_nil_r. destruct w; simpl.
      split; [reflexivity | split; reflexivity].
    + eexists; eexists. split; [reflexivity | split; [reflexivity | eauto]].
  - simpl. eexists; eexists; split; [reflexivity | split; [reflexivity | eauto]].
Qed.

(** The same for [make_api_request]. *)
Lemma make_api_request_cases url params w :
  exists v out,
    Transport.make_api_request user_agent up url params w
    = (Ok v, {| current_datasets := current_datasets w; stdout := stdout w ++ out |}) /\
    match up (Transport.realtime_request user_agent url params) with
    | Text (Some document) => v = document /\ out = []
    | _ => v = JNull
    end.
Proof.
  unfold Transport.make_api_request, try_except, bindM, fetch_json, lift, raise, ret, print.
  destruct (up (Transport.realtime_request user_agent url params))
    as [e|[document|]] eqn:Eup.
  - pose proof (Hexc _ _ Eup) as He.
    destruct e as [code reason| | | | | | | | | | |]; simpl in *; try discriminate;
      try (eexists; eexists; split; [reflexivity | reflexivity]).
    destruct (code =? 401)%Z; [|destruct (code =? 429)%Z];
      simpl; rewrite <- ?app_assoc; eexists; eexists; split; reflexivity.
  - simpl. eexists; exists []. rewrite app_nil_r. destruct w.
    split; [reflexivity | split; reflexivity].
  - simpl. eexists; eexists; split; [reflexivity | reflexivity].
Qed.
End Client.

(** An envelope with [success] false: [make_request] prints the error of
    the envelope and returns [None]. *)
Lemma make_request_api_failure user_agent up endpoint params envelope success msg w :
  up (Transport.catalog_request user_agent endpoint params) = Text (Some envelope) ->
  get envelope (str "success") JNull = Ok success ->
  truthy success = false ->
  get envelope (str "error") (JStr (str "Error desconocido")) = Ok msg ->
  Transport.make_request user_agent up endpoint params w
  = (Ok JNull, {| current_datasets := current_datasets w;
                  stdout := stdout w ++ [Out "Error en la API: {}" [msg]] |}).
Proof.
  intros Hup Hs Ht Hm.
  unfold Transport.make_request, try_except, bindM, fetch_json, lift, raise, ret, print.
  rewrite Hup, Hs, Ht, Hm. reflexivity.
Qed.


Lemma up_http_error_is_exception req e :
  up_http_error req = Fails e -> isinstance e CException = true.
Proof. unfold up_http_error. intros H. injection H as <-. reflexivity. Qed.

Lemma up_two_results_is_exception req e :
  up_two_results req = Fails e -> isinstance e CException = true.
Proof. unfold up_two_results. discriminate. Qed.

(** C8: whatever the request does (an HTTP error status, a failed
    connection, a timeout, a body that is not JSON, any other exception
    deriving from [Exception]), [make_request] and [make_api_request]
    return a value and do not raise; the value is [None] when the request
    brought no JSON document. *)
Theorem transport_never_raises (user_agent : pystr) (up : upstream)
    (Hexc : forall req e, up req = Fails e -> isinstance e CException = true)
    (endpoint url : pystr) (params : list (pystr * json)) (w : session) :
  (exists v w',
      Transport.make_request user_agent up endpoint params w = (Ok v, w') /\
      (request_failed (up (Transport.catalog_request user_agent endpoint params)) = true ->
       v = JNull)) /\
  (exists v w',
      Transport.make_api_request user_agent up url params w = (Ok v, w') /\
      (request_failed (up (Transport.realtime_request user_agent url params)) = true ->
       v = JNull)).
Proof.
  split.
  - destruct (make_request_cases user_agent up Hexc endpoint params w)
      as [v [out [Hrun Hcase]]].
    exists v. eexists. split; [exact Hrun|].
    destruct (up (Transport.catalog_request user_agent endpoint params))
      as [e|[envelope|]]; simpl; intros Hf; try discriminate; tauto.
  - destruct (make_api_request_cases user_agent up Hexc url params w)
      as [v [out [Hrun Hcase]]].
    exists v. eexists. split; [exact Hrun|].
    destruct (up (Transport.realtime_request user_agent url params))
      as [e|[document|]]; simpl; intros Hf; try discriminate; tauto.
Qed.

Lemma transport_never_raises_witness :
  (exists v w',
      Transport.make_request Ckan2.user_agent up_http_error (str "package_list") [] w0
      = (Ok v, w') /\
      (request_failed (up_http_error
                         (Transport.catalog_request Ckan2.user_agent (str "package_list") []))
       = true -> v = JNull)) /\
  (exists v w',
      Transport.make_api_request Ckan2.user_agent up_http_error
        (str "https://api-transporte.buenosaires.gob.ar/subte/serviceAlerts") [] w0
      = (Ok v, w') /\
      (request_failed (up_http_error
                         (Transport.realtime_request Ckan2.user_agent
                            (str "https://api-transporte.buenosaires.gob.ar/subte/serviceAlerts")
                            []))
       = true -> v = JNull)).
Proof.
  apply (transport_never_raises Ckan2.user_agent up_http_error up_http_error_is_exception).
Defined.

(** The signals that do not derive from [Exception] are not caught. *)
Remark keyboard_interrupt_not_caught :
  fst (Transport.make_request Ckan2.user_agent (fun _ => Fails KeyboardInterrupt)
         (str "package_list") [] w0)
  = Raise KeyboardInterrupt.
Proof. reflexivity. Qed.

(** What the two calls print for the status 500 and for status 429. *)
Example http_error_messages :
  Transport.make_request Ckan2.user_agent up_http_error (str "package_list") [] w0
  = (Ok JNull,
     {| current_datasets := JList [];
        stdout := [Out "Error HTTP {}: {}"
                       [JInt 500; JStr (str "Internal Server Error")]] |})
  /\ Transport.make_api_request Ckan2.user_agent
       (fun _ => Fails (HTTPError 429 (str "Too Many Requests")))
       (str "https://api-transporte.buenosaires.gob.ar/subte/serviceAlerts") [] w0
     = (Ok JNull,
        {| current_datasets := JList [];
           stdout := [Out "Error HTTP {}: {}" [JInt 429; JStr (str "Too Many Requests")];
                      Out "Limite de requests excedido" []] |}).
Proof. split; reflexivity. Qed.

End TransportFacts.

(** ** The session of the explorer and the search *)

Module SessionFacts.
Import Py World Spec Examples TransportFacts.

(** C3, as the code has it: when the catalogue answers the detail call
    with an envelope whose [success] is false, [get_package_info] returns
    [None], the error of the envelope is printed, and
    [mostrar_detalles_completos] ends normally with [current_datasets]
    unchanged, after telling that no details could be obtained. *)
Theorem detail_failure_keeps_session (U : unicode) (up : upstream)
    (dataset id name envelope success msg : json) (w : session) :
  get dataset (str "id") JNull = Ok id ->
  get dataset (str "name") JNull = Ok name ->
  up (Transport.catalog_request Ckan2.user_agent (str "package_show")
        [(str "id", or_else id name)]) = Text (Some envelope) ->
  get envelope (str "success") JNull = Ok success ->
  truthy success = false ->
  get envelope (str "error") (JStr (str "Error desconocido")) = Ok msg ->
  Ckan2.get_package_info up (or_else id name) w
  = (Ok JNull, {| current_datasets := current_datasets w;
                  stdout := stdout w ++ [Out "Error en la API: {}" [msg]] |}) /\
  Ckan2.mostrar_detalles_completos U up dataset w
  = (Ok tt, {| current_datasets := current_datasets w;
               stdout := stdout w ++
                 [Out "Obteniendo detalles de: {}" [or_else id name];
                  Out "Error en la API: {}" [msg];
                  Out "No se pudo obtener informacion detallada." []] |}).
Proof.
  intros Hid Hname Hup Hs Ht Hm.
  unfold Ckan2.get_package_info, Transport.get_package_info.
  split.
  - apply (make_request_api_failure _ _ _ _ _ _ _ w Hup Hs Ht Hm).
  - unfold Ckan2.mostrar_detalles_completos, Ckan2.get_package_info,
      Transport.get_package_info.
    unfold bindM at 1. unfold lift at 1. rewrite Hid.
    unfold bindM at 1. unfold lift at 1. rewrite Hname.
    unfold bindM at 1. unfold print at 1.
    unfold bindM at 1.
    rewrite (make_request_api_failure _ _ _ _ _ _ _ _ Hup Hs Ht Hm).
    simpl. unfold print. simpl. rewrite <- !app_assoc. reflexivity.
Qed.

Lemma detail_failure_keeps_session_witness :
  Ckan2.get_package_info (up_api_failure (str "Not found"))
    (or_else (JStr (str "subte-estaciones")) JNull) w0
  = (Ok JNull, {| current_datasets := current_datasets w0;
                  stdout := stdout w0 ++
                    [Out "Error en la API: {}" [JStr (str "Not found")]] |}) /\
  Ckan2.mostrar_detalles_completos ascii_table (up_api_failure (str "Not found"))
    dataset_subte w0
  = (Ok tt, {| current_datasets := current_datasets w0;
               stdout := stdout w0 ++
                 [Out "Obteniendo detalles de: {}"
                      [or_else (JStr (str "subte-estaciones")) JNull];
                  Out "Error en la API: {}" [JStr (str "Not found")];
                  Out "No se pudo obtener informacion detallada." []] |}).
Proof.
  apply (detail_failure_keeps_session ascii_table (up_api_failure (str "Not found"))
           dataset_subte (JStr (str "subte-estaciones")) JNull
           (JObj [ (str "success", JBool false); (str "error", JStr (str "Not found")) ])
           (JBool false) (JStr (str "Not found")) w0);
    reflexivity.
Defined.

(** Counterexample to C3 as stated: the value the detail call returns is
    [None] whatever the error of the envelope says, so it does not carry
    the message. *)
Lemma detail_failure_returns_none :
  fst (Ckan2.get_package_info (up_api_failure (str "Not found"))
         (JStr (str "subte-estaciones")) w0) = Ok JNull
  /\ fst (Ckan2.get_package_info (up_api_failure (str "Forbidden"))
            (JStr (str "subte-estaciones")) w0) = Ok JNull
  /\ fst (Ckan2.mostrar_detalles_completos ascii_table (up_api_failure (str "Not found"))
            dataset_subte w0) = Ok tt
  /\ str "Not found" <> str "Forbidden".
Proof. repeat split; try reflexivity. discriminate. Qed.

(** C4, as the code has it: [search_packages] sends the limit to the
    catalogue as the [rows] parameter and returns the result set of the
    reply as it is, without cutting it; so the result set has at most
    [rows] elements whenever that of the reply has. *)
Theorem search_returns_upstream_result_set (user_agent : pystr) (up : upstream)
    (Hexc : forall req e, up req = Fails e -> isinstance e CException = true)
    (query : pystr) (rows : Z) (w : session) :
  exists result w',
    Transport.search_packages user_agent up query rows w = (Ok result, w') /\
    lookup (str "rows") (Transport.search_params query rows)
    = Some (JStr (str_of_int rows)) /\
    result_set result
    = reply_result_set (up (Transport.catalog_request user_agent (str "package_search")
                              (Transport.search_params query rows))) /\
    ((Z.of_nat (length (reply_result_set
                          (up (Transport.catalog_request user_agent (str "package_search")
                                 (Transport.search_params query rows))))) <= rows)%Z ->
     (Z.of_nat (length (result_set result)) <= rows)%Z).
Proof.
  unfold Transport.search_packages. unfold bindM.
  destruct (make_request_cases user_agent up Hexc (str "package_search")
              (Transport.search_params query rows) w) as [v [out [Hrun Hcase]]].
  rewrite Hrun. unfold ret.
  eexists. eexists. split; [reflexivity|]. split; [reflexivity|].
  assert (Hset : result_set (if truthy v then v else JObj [])
                 = reply_result_set
                     (up (Transport.catalog_request user_agent (str "package_search")
                            (Transport.search_params query rows)))).
  { destruct (up (Transport.catalog_request user_agent (str "package_search")
                    (Transport.search_params query rows))) as [e|[envelope|]]; simpl.
    - destruct Hcase as [-> _]. reflexivity.
    - destruct (get envelope (str "success") JNull) as [success|] eqn:Es.
      + destruct (truthy success).
        * destruct Hcase as [Hres _]. rewrite Hres.
          destruct (truthy v) eqn:Ev; [reflexivity|].
          destruct v as [|b|z|s|l|m]; simpl in *; try reflexivity.
          destruct m; [reflexivity | discriminate].
        * destruct Hcase as [-> _]. simpl.
          destruct (get envelope (str "result") JNull); reflexivity.
      + destruct Hcase as [-> _]. reflexivity.
    - destruct Hcase as [-> _]. reflexivity. }
  split; [exact Hset|]. rewrite Hset. tauto.
Qed.

Lemma search_returns_upstream_result_set_witness :
  exists result w',
    Transport.search_packages Ckan2.user_agent up_two_results (str "subte") 20 w0
    = (Ok result, w') /\
    lookup (str "rows") (Transport.search_params (str "subte") 20)
    = Some (JStr (str_of_int 20)) /\
    result_set result
    = reply_result_set
        (up_two_results (Transport.catalog_request Ckan2.user_agent (str "package_search")
                           (Transport.search_params (str "subte") 20))) /\
    ((Z.of_nat (length (reply_result_set
                          (up_two_results
                             (Transport.catalog_request Ckan2.user_agent
                                (str "package_search")
                                (Transport.search_params (str "subte") 20))))) <= 20)%Z ->
     (Z.of_nat (length (result_set result)) <= 20)%Z).
Proof.
  apply (search_returns_upstream_result_set Ckan2.user_agent up_two_results
           up_two_results_is_exception (str "subte") 20 w0).
Defined.

(** Counterexample to C4 as stated: asked for one row, a catalogue that
    answers with two datasets gets both of them through. *)
Lemma search_exceeds_limit :
  fst (Transport.search_packages Ckan2.user_agent up_two_results (str "subte") 1 w0)
  = Ok two_results
  /\ length (result_set two_results) = 2
  /\ ~ (Z.of_nat (length (result_set two_results)) <= 1)%Z.
Proof. split; [reflexivity|]. split; [reflexivity|]. simpl. lia. Qed.

End SessionFacts.

(** ** Sorting the organizations *)

Module SortFacts.
Import Py World Spec Examples.

Section Sorted.
Context {A : Type}.
Variable key : A -> Z.

Lemma insert_perm x l : Permutation (x :: l) (insert key x l).
Proof.
  induction l as [|y l IH]; simpl; [reflexivity|].
  destruct (key x <=? key y)%Z; [reflexivity|].
  rewrite perm_swap. constructor. exact IH.
Qed.

Lemma sort_asc_perm l : Permutation l (sort_asc key l).
Proof.
  induction l as [|x l IH]; simpl; [constructor|].
  rewrite <- insert_perm. constructor. exact IH.
Qed.

Lemma insert_sorted x l :
  StronglySorted (ascending key) l -> StronglySorted (ascending key) (insert key x l).
Proof.
  induction 1 as [|y l Hl IH Hy]; simpl.
  - constructor; constructor.
  - destruct (Z.leb_spec (key x) (key y)) as [Hle|Hgt].
    + constructor; [constructor; assumption|].
      constructor; [exact Hle|].
      eapply Forall_impl; [|exact Hy]. unfold ascending. intros; lia.
    + constructor; [exact IH|].
      eapply Permutation_Forall; [apply insert_perm|].
      constructor; [unfold ascending; lia | exact Hy].
Qed.

Lemma sort_asc_sorted l : StronglySorted (ascending key) (sort_asc key l).
Proof.
  induction l as [|x l IH]; simpl; [constructor | apply insert_sorted, IH].
Qed.

(** An insertion moves the new item past items of other keys only. *)
Lemma insert_filter k x l :
  filter (fun y => key y =? k)%Z (insert key x l)
  = filter (fun y => key y =? k)%Z (x :: l).
Proof.
  induction l as [|y l IH]; [reflexivity|].
  simpl insert. destruct (Z.leb_spec (key x) (key y)) as [Hle|Hgt]; [reflexivity|].
  cbn [filter] in *. rewrite IH.
  destruct (Z.eqb_spec (key y) k), (Z.eqb_spec (key x) k); try reflexivity; lia.
Qed.

Lemma sort_asc_filter k l :
  filter (fun y => key y =? k)%Z (sort_asc key l) = filter (fun y => key y =? k)%Z l.
Proof.
  induction l as [|x l IH]; [reflexivity|].
  simpl sort_asc. rewrite insert_filter. cbn [filter]. rewrite IH. reflexivity.
Qed.

Lemma sorted_append (R : A -> A -> Prop) l1 l2 :
  StronglySorted R l1 -> StronglySorted R l2 ->
  (forall a b, In a l1 -> In b l2 -> R a b) ->
  StronglySorted R (l1 ++ l2).
Proof.
  induction 1 as [|a l1 Hl1 IH Ha]; intros H2 Hcross; simpl; [exact H2|].
  constructor.
  - apply IH; [exact H2 | intros; apply Hcross; simpl; auto].
  - apply Forall_app; split; [exact Ha|].
    apply Forall_forall. intros b Hb. apply Hcross; simpl; auto.
Qed.

Lemma sorted_rev l :
  StronglySorted (ascending key) l -> StronglySorted (descending key) (rev l).
Proof.
  induction 1 as [|a l Hl IH Ha]; simpl; [constructor|].
  apply sorted_append; [exact IH | constructor; constructor |].
  intros b c Hb [<-|[]]. apply in_rev in Hb.
  rewrite Forall_forall in Ha. exact (Ha b Hb).
Qed.

(** [sorted(..., reverse=True)] gives a permutation, in descending order
    of the key, the items of one key in their order in the input. *)
Lemma sorted_reverse_spec l :
  Permutation l (sorted key true l) /\
  StronglySorted (descending key) (sorted key true l) /\
  forall k, filter (fun y => key y =? k)%Z (sorted key true l)
            = filter (fun y => key y =? k)%Z l.
Proof.
  unfold sorted. split; [|split].
  - rewrite <- Permutation_rev, <- sort_asc_perm. apply Permutation_rev.
  - apply sorted_rev, sort_asc_sorted.
  - intros k. rewrite filter_rev, sort_asc_filter, filter_rev. apply rev_involutive.
Qed.

(** Sorting the images of the items under [h] by a key of the images is
    sorting the items by the key of their image. *)
Lemma insert_map {B} (h : B -> A) x l :
  insert key (h x) (map h l) = map h (insert (fun y => key (h y)) x l).
Proof.
  induction l as [|y l IH]; [reflexivity|].
  simpl. destruct (key (h x) <=? key (h y))%Z; [reflexivity|].
  simpl. f_equal. exact IH.
Qed.

Lemma sorted_map {B} (h : B -> A) reverse l :
  sorted key reverse (map h l) = map h (sorted (fun y => key (h y)) reverse l).
Proof.
  assert (Hasc : forall l, sort_asc key (map h l)
                           = map h (sort_asc (fun y => key (h y)) l)).
  { intros l0. induction l0 as [|x l0 IH]; [reflexivity|].
    simpl. rewrite IH. apply insert_map. }
  unfold sorted. destruct reverse.
  - rewrite <- map_rev, Hasc, <- map_rev. reflexivity.
  - apply Hasc.
Qed.
End Sorted.

(** The key the code computes for an organization of the catalogue is
    its dataset count. *)
Lemma key_of_organization (x : json) :
  organization x -> Ckan2.package_count x = Ok (JInt (count x)).
Proof.
  intros [members [-> [Hnone|[n Hsome]]]]; unfold Ckan2.package_count, count;
    cbn [get]; [rewrite Hnone | rewrite Hsome]; reflexivity.
Qed.

Lemma keys_computed (orgs : list json) :
  Forall organization orgs ->
  mapM (fun x => bind (Ckan2.package_count x) (fun k => Ok (k, x))) orgs
  = Ok (map (fun x => (JInt (count x), x)) orgs).
Proof.
  induction 1 as [|x orgs Hx Hrest IH]; [reflexivity|].
  cbn [mapM]. rewrite (key_of_organization x Hx), IH. reflexivity.
Qed.

(** Keys that are numbers are sorted as numbers, however many there are. *)
Lemma sorted_keyed_numbers {A} reverse (keyed : list (json * A)) :
  forallb (fun kx => is_number (fst kx)) keyed = true ->
  sorted_keyed reverse keyed
  = Ok (map snd (sorted (fun kx => number (fst kx)) reverse keyed)).
Proof.
  intros Hnum. destruct keyed as [|a [|b keyed]].
  - destruct reverse; reflexivity.
  - destruct reverse; reflexivity.
  - unfold sorted_keyed. rewrite Hnum. reflexivity.
Qed.

(** On organizations of the catalogue the code sorts by the dataset
    count. *)
Lemma sorted_by_count (orgs : list json) :
  Forall organization orgs ->
  Ckan2.sorted_by_package_count (JList orgs) = Ok (sorted count true orgs).
Proof.
  intros Horgs. unfold Ckan2.sorted_by_package_count. cbn [iter bind].
  rewrite (keys_computed orgs Horgs). cbn [bind].
  rewrite sorted_keyed_numbers.
  - rewrite (sorted_map (fun kx : json * json => number (fst kx))
                        (fun x => (JInt (count x), x))).
    rewrite map_map. cbn [snd]. rewrite map_id. reflexivity.
  - clear Horgs. induction orgs as [|x orgs IH]; [reflexivity|exact IH].
Qed.

(** C7: organizations of the catalogue are listed in descending order of
    their dataset count, the integer under [package_count], those of equal
    count in the order of the upstream list; the output is a permutation
    of the upstream list, a function of it alone, of which the command
    line shows the first ten. *)
Theorem organizations_sorted_stably (orgs : list json) :
  Forall organization orgs ->
  exists l,
    Ckan2.sorted_by_package_count (JList orgs) = Ok l /\
    App.orgs_sorted (JList orgs) = Ok l /\
    Ckan2.orgs_sorted (JList orgs) = Ok (firstn 10 l) /\
    Permutation orgs l /\
    StronglySorted (descending count) l /\
    forall k, filter (fun x => count x =? k)%Z l = filter (fun x => count x =? k)%Z orgs.
Proof.
  intros Horgs. exists (sorted count true orgs).
  pose proof (sorted_by_count orgs Horgs) as Hrun.
  destruct (sorted_reverse_spec count orgs) as [Hperm [Hsorted Hstable]].
  repeat split; try assumption.
  unfold Ckan2.orgs_sorted. rewrite Hrun. reflexivity.
Qed.

Lemma organizations_sorted_stably_witness :
  exists l,
    Ckan2.sorted_by_package_count (JList orgs_ejemplo) = Ok l /\
    App.orgs_sorted (JList orgs_ejemplo) = Ok l /\
    Ckan2.orgs_sorted (JList orgs_ejemplo) = Ok (firstn 10 l) /\
    Permutation orgs_ejemplo l /\
    StronglySorted (descending count) l /\
    forall k, filter (fun x => count x =? k)%Z l
              = filter (fun x => count x =? k)%Z orgs_ejemplo.
Proof.
  apply (organizations_sorted_stably orgs_ejemplo).
  repeat (constructor;
          [eexists; split; [reflexivity | right; eexists; reflexivity]|]).
  constructor.
Defined.

(** Three organizations, two of them with twelve datasets. *)
Example organizations_sorted_example :
  Ckan2.orgs_sorted (JList orgs_ejemplo)
  = Ok [ org "transporte" 30; org "salud" 12; org "cultura" 12 ].
Proof. reflexivity. Qed.

(** Outside the catalogue's integers: one organization alone is listed
    whatever its count is, counts that are strings are sorted as strings,
    and two counts that [<] does not order stop the sort. *)
Example one_organization_is_listed :
  Ckan2.sorted_by_package_count (JList [ JObj [ (str "package_count", JNull) ] ])
  = Ok [ JObj [ (str "package_count", JNull) ] ].
Proof. reflexivity. Qed.

Example text_counts_are_sorted :
  Ckan2.sorted_by_package_count
    (JList [ JObj [ (str "package_count", JStr (str "12")) ];
             JObj [ (str "package_count", JStr (str "9")) ];
             JObj [ (str "package_count", JStr (str "12")); (str "name", JNull) ] ])
  = Ok [ JObj [ (str "package_count", JStr (str "9")) ];
         JObj [ (str "package_count", JStr (str "12")) ];
         JObj [ (str "package_count", JStr (str "12")); (str "name", JNull) ] ].
Proof. reflexivity. Qed.

Example mixed_counts_stop_the_sort :
  Ckan2.sorted_by_package_count
    (JList [ JObj [ (str "package_count", JInt 3) ];
             JObj [ (str "package_count", JNull) ] ])
  = Raise TypeError.
Proof. reflexivity. Qed.

End SortFacts.

(** ** What the views do to the session *)

Module EffectFacts.
Import Py World Spec Examples Effects.

Lemma additive_true : additive (fun _ => True).
Proof. split; auto. Qed.

Lemma additive_no_download : additive no_download.
Proof.
  split; [constructor|]. unfold no_download. intros o1 o2 H1 H2.
  apply Forall_app. split; assumption.
Qed.

Lemma session_eta w :
  w = {| current_datasets := current_datasets w; stdout := stdout w ++ [] |}.
Proof. destruct w. simpl. rewrite app_nil_r. reflexivity. Qed.

Section Writes.
Variable Q : list event -> Prop.
Hypothesis HQ : additive Q.

Lemma writes_ret {A} (a : A) : writes Q (ret a).
Proof. intros w. exists []. split; [apply session_eta | apply HQ]. Qed.

Lemma writes_raise {A} e : writes Q (@raise A e).
Proof. intros w. exists []. split; [apply session_eta | apply HQ]. Qed.

Lemma writes_lift {A} (r : result A) : writes Q (lift r).
Proof. intros w. exists []. split; [apply session_eta | apply HQ]. Qed.

Lemma writes_print text values : Q [Out text values] -> writes Q (print text values).
Proof. intros H w. exists [Out text values]. split; [reflexivity | exact H]. Qed.

Lemma writes_bind {A B} (m : M A) (k : A -> M B) :
  writes Q m -> (forall a, writes Q (k a)) -> writes Q (bindM m k).
Proof.
  intros Hm Hk w. unfold bindM.
  destruct (Hm w) as [o1 [E1 Q1]].
  destruct (m w) as [[a|e] w1]; simpl in E1; subst w1.
  - destruct (Hk a {| current_datasets := current_datasets w; stdout := stdout w ++ o1 |})
      as [o2 [E2 Q2]].
    exists (o1 ++ o2). simpl in E2. rewrite E2, app_assoc.
    split; [reflexivity | apply HQ; assumption].
  - exists o1. split; [reflexivity | exact Q1].
Qed.

Lemma writes_for_each {A} (f : Z -> A -> M unit) l :
  (forall i x, writes Q (f i x)) -> forall i, writes Q (Ckan2.for_each f i l).
Proof.
  intros Hf. induction l as [|x l IH]; intros i; simpl.
  - apply writes_ret.
  - apply writes_bind; [apply Hf | intros _; apply IH].
Qed.

Lemma writes_when c (m : M unit) : writes Q m -> writes Q (Ckan2.when c m).
Proof. intros H. unfold Ckan2.when. destruct c; [exact H | apply writes_ret]. Qed.

Lemma writes_try_except {A} (body : M A) handlers :
  writes Q body ->
  Forall (fun ch => forall e, writes Q (snd ch e)) handlers ->
  writes Q (try_except body handlers).
Proof.
  intros Hb Hh w. unfold try_except.
  destruct (Hb w) as [o1 [E1 Q1]].
  destruct (body w) as [[a|e] w1]; simpl in E1; subst w1.
  - exists o1. split; [reflexivity | exact Q1].
  - assert (Hd : match dispatch e handlers with
                 | Some h => forall e', writes Q (h e')
                 | None => True
                 end).
    { induction Hh as [|[c h] hs Hh1 Hhs IH]; simpl; [exact I|].
      destruct (isinstance e c); [exact Hh1 | exact IH]. }
    destruct (dispatch e handlers) as [h|].
    + destruct (Hd e {| current_datasets := current_datasets w; stdout := stdout w ++ o1 |})
        as [o2 [E2 Q2]].
      exists (o1 ++ o2). simpl in E2. rewrite E2, app_assoc.
      split; [reflexivity | apply HQ; assumption].
    + exists o1. split; [reflexivity | exact Q1].
Qed.

Lemma writes_try_value_error {A} (body handler : M A) :
  writes Q body -> writes Q handler -> writes Q (Menu.try_value_error body handler).
Proof.
  intros Hb Hh w. unfold Menu.try_value_error.
  destruct (Hb w) as [o1 [E1 Q1]].
  destruct (body w) as [[a|e] w1]; simpl in E1; subst w1.
  - exists o1. split; [reflexivity | exact Q1].
  - destruct (Menu.is_value_error e).
    + destruct (Hh {| current_datasets := current_datasets w; stdout := stdout w ++ o1 |})
        as [o2 [E2 Q2]].
      exists (o1 ++ o2). simpl in E2. rewrite E2, app_assoc.
      split; [reflexivity | apply HQ; assumption].
    + exists o1. split; [reflexivity | exact Q1].
Qed.

Lemma writes_read {A} (k : json -> M A) :
  (forall v, writes Q (k v)) -> writes Q (bindM Menu.read_current_datasets k).
Proof. intros Hk w. unfold bindM, Menu.read_current_datasets. apply Hk. Qed.

Lemma writes_input {A} prompt values typed (k : Z -> M A) :
  Q [Out prompt values] ->
  (forall c, typed = Some c -> writes Q (k c)) ->
  writes Q (bindM (Menu.input_int prompt values typed) k).
Proof.
  intros Hp Hk. unfold Menu.input_int. destruct typed as [c|].
  - intros w. unfold bindM, print, ret.
    destruct (Hk c eq_refl {| current_datasets := current_datasets w;
                              stdout := stdout w ++ [Out prompt values] |})
      as [o2 [E2 Q2]].
    exists ([Out prompt values] ++ o2). simpl in E2. rewrite E2, app_assoc.
    split; [reflexivity | apply HQ; assumption].
  - intros w. unfold bindM, print, raise. exists [Out prompt values].
    split; [reflexivity | exact Hp].
Qed.

Hypothesis Hline : forall text values,
  is_line "Descargando: {}" (Out text values) = false -> Q [Out text values].

Lemma writes_fetch_json up req : writes Q (fetch_json up req).
Proof.
  unfold fetch_json. destruct (up req) as [e|[j|]];
    [apply writes_raise | apply writes_ret | apply writes_raise].
Qed.

Lemma writes_make_request user_agent up endpoint params :
  writes Q (Transport.make_request user_agent up endpoint params).
Proof.
  unfold Transport.make_request. apply writes_try_except.
  - apply writes_bind; [apply writes_fetch_json|]. intros json_data.
    apply writes_bind; [apply writes_lift|]. intros success.
    destruct (truthy success); [apply writes_lift|].
    apply writes_bind; [apply writes_lift|]. intros err.
    apply writes_bind; [apply writes_print, Hline; reflexivity|]. intros _.
    apply writes_ret.
  - repeat constructor; intros e; simpl;
      (apply writes_bind; [apply writes_print, Hline; reflexivity | intros _; apply writes_ret]).
Qed.
End Writes.


Ltac writes_step :=
  match goal with
  | |- writes _ (ret _) => apply writes_ret; assumption
  | |- writes _ (raise _) => apply writes_raise; assumption
  | |- writes _ (lift _) => apply writes_lift; assumption
  | |- writes _ (print _ _) =>
      apply writes_print;
      first [ exact I
            | match goal with H : forall text values, _ -> _ |- _ => apply H; reflexivity end ]
  | |- writes _ (Transport.make_request _ _ _ _) =>
      apply writes_make_request; assumption
  | |- writes _ (Ckan2.when _ _) => apply writes_when; [assumption|]
  | |- writes _ (Ckan2.for_each _ _ _) => apply writes_for_each; [assumption | intros ? ?]
  | |- writes _ (bindM _ _) => apply writes_bind; [assumption | | intros ?]
  | |- writes _ (if ?c then _ else _) => destruct c
  | |- writes _ (match ?x with _ => _ end) => destruct x
  end.

Section Views.
Variable Q : list event -> Prop.
Hypothesis HQ : additive Q.
Hypothesis Hline : forall text values,
  is_line "Descargando: {}" (Out text values) = false -> Q [Out text values].

Lemma writes_search_packages user_agent up query rows :
  writes Q (Transport.search_packages user_agent up query rows).
Proof. unfold Transport.search_packages. repeat writes_step. Qed.

Lemma writes_get_organizations user_agent up :
  writes Q (Transport.get_organizations user_agent up).
Proof. unfold Transport.get_organizations. repeat writes_step. Qed.

Lemma writes_mostrar_dataset U D i dataset : writes Q (Ckan2.mostrar_dataset U D i dataset).
Proof. unfold Ckan2.mostrar_dataset. repeat writes_step. Qed.

Lemma writes_mostrar_lista_datasets U D datasets :
  writes Q (Ckan2.mostrar_lista_datasets U D datasets).
Proof.
  unfold Ckan2.mostrar_lista_datasets. repeat writes_step.
  apply writes_mostrar_dataset.
Qed.

Lemma writes_mostrar_recurso U i resource : writes Q (Ckan2.mostrar_recurso U i resource).
Proof. unfold Ckan2.mostrar_recurso. repeat writes_step. Qed.

Lemma writes_detalles_encabezado detailed_info :
  writes Q (Ckan2.detalles_encabezado detailed_info).
Proof. unfold Ckan2.detalles_encabezado. repeat writes_step. Qed.

Lemma writes_detalles_fechas detailed_info :
  writes Q (Ckan2.detalles_fechas detailed_info).
Proof. unfold Ckan2.detalles_fechas. repeat writes_step. Qed.

Lemma writes_detalles_tags detailed_info :
  writes Q (Ckan2.detalles_tags detailed_info).
Proof. unfold Ckan2.detalles_tags. repeat writes_step. Qed.

Lemma writes_detalles_recursos U detailed_info :
  writes Q (Ckan2.detalles_recursos U detailed_info).
Proof.
  unfold Ckan2.detalles_recursos. repeat writes_step. apply writes_mostrar_recurso.
Qed.

Lemma writes_mostrar_detalles_completos U up dataset :
  writes Q (Ckan2.mostrar_detalles_completos U up dataset).
Proof.
  unfold Ckan2.mostrar_detalles_completos, Ckan2.get_package_info,
    Transport.get_package_info.
  repeat writes_step;
    first [ apply writes_detalles_encabezado | apply writes_detalles_fechas
          | apply writes_detalles_tags | apply writes_detalles_recursos ].
Qed.
End Views.

End EffectFacts.

(** ** The normalizers of descriptions, dates and formats *)

Module NormalizerFacts.
Import Py World Spec Examples Datetime TextFacts Effects TransportFacts EffectFacts.

Lemma get_present d k default s :
  get d k JNull = Ok (JStr s) -> get d k default = Ok (JStr s).
Proof.
  destruct d as [| | | | |m]; simpl; try discriminate.
  destruct (lookup k m) as [v|]; intros H; [exact H | discriminate].
Qed.

(** The dashboard appends the marker to every description it has, short
    or long. *)
Lemma descripcion_present dataset s :
  get dataset (str "notes") JNull = Ok (JStr s) -> s <> [] ->
  App.dataset_descripcion dataset = Ok (slice_to 150 s ++ str "...").
Proof.
  intros H Hs. unfold App.dataset_descripcion. rewrite H.
  cbn [bind truthy]. destruct s as [|c s]; [contradiction|].
  rewrite (get_present _ _ (JStr Ckan2.sin_descripcion) _ H). reflexivity.
Qed.

(** A description that is absent, null or empty becomes the sentinel, which
    is not the empty string. *)
Lemma descripcion_absent dataset v :
  get dataset (str "notes") JNull = Ok v -> truthy v = false ->
  App.dataset_descripcion dataset = Ok Ckan2.sin_descripcion /\
  Ckan2.sin_descripcion <> [].
Proof.
  intros H Hv. unfold App.dataset_descripcion. rewrite H.
  cbn [bind]. rewrite Hv. split; [reflexivity | discriminate].
Qed.

(** The listing of the command line appends the marker to the
    descriptions of more than 100 characters only. *)
Lemma lista_notes_string dataset s :
  get dataset (str "notes") (JStr Ckan2.sin_descripcion) = Ok (JStr s) ->
  Ckan2.lista_notes dataset
  = Ok (JStr (if (100 <? length s)%nat then slice_to 100 s ++ str "..." else s)).
Proof.
  intros H. unfold Ckan2.lista_notes. rewrite H. reflexivity.
Qed.

(** C2: the dashboard renders the description "Datos de subte", of 14
    characters, as "Datos de subte..."; the listing of the command line
    leaves it as it is. *)
Theorem short_description_gets_ellipsis :
  App.dataset_descripcion dataset_subte = Ok (str "Datos de subte...")
  /\ Ckan2.lista_notes dataset_subte = Ok (JStr (str "Datos de subte"))
  /\ str "Datos de subte..." <> str "Datos de subte".
Proof. repeat split; try reflexivity. discriminate. Qed.







Example details_view_date_lines :
  date_lines (str "2020-01-02T03:04:05.000000") (str "2023-05")
  = [ Out "Creado: {}" [JStr (str "2020-01-02")];
      Out "Actualizado: {}" [JStr (str "2023-05")] ]
  /\ date_lines [] (str "2023-05-17T10:20:30.000000")
     = [ Out "Actualizado: {}" [JStr (str "2023-05-17")] ].
Proof. split; reflexivity. Qed.


(** The details view keeps the first 10 characters of both dates and
    upper-cases the format of each resource. *)
Example details_view_run :
  Ckan2.mostrar_detalles_completos ascii_table up_detail dataset_subte w0
  = (Ok tt,
     {| current_datasets := JList [];
        stdout :=
          [ Out "Obteniendo detalles de: {}" [JStr (str "subte-estaciones")];
            Out (rule "=" 60) [];
            Out "{}" [JStr Ckan2.sin_titulo];
            Out (rule "=" 60) [];
            Out "ID: {}" [JStr (str "subte-estaciones")];
            Out "Descripcion: {}" [JStr (str "No disponible")];
            Out "Creado: {}" [JStr (str "2020-01-02")];
            Out "Actualizado: {}" [JStr (str "2023-05")];
            Out "RECURSOS DISPONIBLES ({}):" [JInt 1];
            Out (rule "-" 40) [];
            Out "{}. {}" [JInt 1; JStr (str "Recurso 1")];
            Out "Formato: {}{}" [JStr (str "CSV"); JNull] ] |}).
Proof. vm_compute. reflexivity. Qed.

(** Where the format is upper-cased: a format that is given is replaced
    by its upper-case form, one that is missing by that of "N/A". *)
Lemma format_upper_present U resource s :
  get resource (str "format") (JStr (str "N/A")) = Ok (JStr s) ->
  Ckan2.format_upper U resource = Ok (upper U s).
Proof. intros H. unfold Ckan2.format_upper. rewrite H. reflexivity. Qed.

Lemma format_upper_missing U members :
  lookup (str "format") members = None ->
  Ckan2.format_upper U (JObj members) = Ok (upper U (str "N/A")).
Proof.
  intros H. unfold Ckan2.format_upper, get. rewrite H. reflexivity.
Qed.

Lemma upper_not_available : upper ascii_table (str "N/A") = str "N/A".
Proof. reflexivity. Qed.

(** C6: [process_datasets] takes the format "csv" of a resource as it
    is, in its [formats] list and in the [formatos] column, where the
    listing of the command line gives "CSV". *)
Theorem process_datasets_keeps_format_case :
  App.formats dataset_subte = Ok [JStr (str "csv")]
  /\ (exists r, App.process_dataset (fun l => l) dataset_subte = Ok r
                /\ App.formatos r = str "csv")
  /\ Ckan2.lista_formats ascii_table dataset_subte = Ok (Some [str "CSV"])
  /\ upper ascii_table (str "csv") = str "CSV"
  /\ str "csv" <> str "CSV".
Proof.
  split; [reflexivity|]. split; [eexists; split; reflexivity|].
  repeat split; try reflexivity. discriminate.
Qed.

End NormalizerFacts.

(** ** The filters of the search page *)

Module FilterFacts.
Import Py World Spec.

Lemma filter_twice {A} (f g : A -> bool) l :
  filter g (filter f (filter g (filter f l))) = filter g (filter f l).
Proof.
  induction l as [|x l IH]; [reflexivity|].
  simpl. destruct (f x) eqn:Ef; [|exact IH].
  simpl. destruct (g x) eqn:Eg; [|exact IH].
  simpl. rewrite Ef. simpl. rewrite Eg. f_equal. exact IH.
Qed.

Lemma filter_once {A} (f : A -> bool) l : filter f (filter f l) = filter f l.
Proof.
  induction l as [|x l IH]; [reflexivity|].
  simpl. destruct (f x) eqn:Ef; [|exact IH].
  simpl. rewrite Ef. f_equal. exact IH.
Qed.

(** C9: applying the filters of the search page to their own result gives
    that result again, for every choice of organization and of format. *)
Theorem apply_filters_idempotent (org_filter : pystr) (format_filter : App.format_choice)
    (df : list App.row) :
  App.apply_filters org_filter format_filter
    (App.apply_filters org_filter format_filter df)
  = App.apply_filters org_filter format_filter df.
Proof.
  unfold App.apply_filters.
  destruct (negb (pystr_eqb org_filter (str "Todas")));
    destruct (negb (pystr_eqb (App.format_label format_filter) (str "Todos")));
    auto using filter_twice, filter_once.
Qed.

End FilterFacts.


(** * Further properties of the two programs *)

(** ** File names and formats *)

Module NamingFacts.
Import Py World Spec Examples MoreExamples TextFacts FilenameFacts SortFacts.

Lemma endswith_suffix s t : endswith s t = true <-> exists p, s = p ++ t.
Proof.
  unfold endswith. rewrite andb_true_iff, pystr_eqb_eq, Nat.leb_le. split.
  - intros [H _]. exists (firstn (length s - length t) s).
    transitivity (firstn (length s - length t) s ++ skipn (length s - length t) s);
      [symmetry; apply firstn_skipn | rewrite H; reflexivity].
  - intros [p ->]. rewrite length_app. split; [|lia].
    replace (length p + length t - length t) with (length p + 0) by lia.
    rewrite skipn_app, Nat.add_0_r, skipn_all.
    replace (length p - length p) with 0 by lia. reflexivity.
Qed.

(** X1: the file name handed to the downloader ends with a dot and the
    lower-cased format whenever the resource has a format, whether the
    extension was appended or the sanitized name had it already; without a
    format the whole name consists of allowed characters. *)
Theorem download_name_extension (U : unicode) (resource dataset_name url : json)
    (filename fmt : pystr) :
  Ckan2.download_name U resource dataset_name = Ok (Some (url, filename)) ->
  get resource (str "format") (JStr []) = Ok (JStr fmt) ->
  (lower U fmt <> [] -> endswith filename (dot :: lower U fmt) = true) /\
  (lower U fmt = [] -> forall c, In c filename -> allowed U c = true).
Proof.
  unfold Ckan2.download_name. intros H Hfmt.
  destruct (get resource (str "url") JNull) as [url0|]; simpl in H; [|discriminate].
  destruct (truthy url0); simpl in H; [|discriminate].
  destruct (get resource (str "name") JNull) as [name0|]; simpl in H; [|discriminate].
  destruct (get resource (str "description") JNull) as [description|];
    simpl in H; [|discriminate].
  rewrite Hfmt in H. simpl in H.
  destruct (as_str (or_else (or_else name0 description) (JStr (str "recurso"))))
    as [name_str|]; simpl in H; [|discriminate].
  destruct (as_str (or_else dataset_name (JStr (str "dataset"))))
    as [dataset_str|]; simpl in H; [|discriminate].
  split.
  - intros Hne. destruct (lower U fmt) as [|c f] eqn:El; [contradiction|].
    simpl in H.
    destruct (endswith (Ckan2.clean_filename U name_str) (dot :: c :: f)) eqn:Ee;
      simpl in H; injection H as _ <-.
    + apply endswith_suffix in Ee. destruct Ee as [p Hp]. rewrite Hp.
      apply endswith_suffix.
      exists (Ckan2.clean_filename U dataset_str ++ underscore :: p).
      rewrite <- app_assoc. reflexivity.
    + apply endswith_suffix.
      exists (Ckan2.clean_filename U dataset_str ++ underscore
                :: Ckan2.clean_filename U name_str).
      rewrite <- !app_assoc. reflexivity.
  - intros He. rewrite He in H. simpl in H. injection H as _ <-.
    intros c Hc. apply in_app_or in Hc. destruct Hc as [Hc|[<-|Hc]].
    + pose proof (clean_filename_allowed U dataset_str) as Ha.
      rewrite Forall_forall in Ha. auto.
    + unfold allowed. simpl. apply orb_true_r.
    + pose proof (clean_filename_allowed U name_str) as Ha.
      rewrite Forall_forall in Ha. auto.
Qed.

Lemma download_name_extension_witness :
  (lower ascii_table (str "CSV") <> [] ->
   endswith
     (str "estaciones-bicicletas-publicas_Estaciones_de_bicicletas_publicas_2023.csv")
     (dot :: lower ascii_table (str "CSV")) = true) /\
  (lower ascii_table (str "CSV") = [] ->
   forall c,
     In c (str "estaciones-bicicletas-publicas_Estaciones_de_bicicletas_publicas_2023.csv") ->
     allowed ascii_table c = true).
Proof.
  apply (download_name_extension ascii_table recurso_estaciones dataset_estaciones
           (JStr (str "https://cdn.buenosaires.gob.ar/estaciones.csv"))).
  - vm_compute. reflexivity.
  - reflexivity.
Defined.

Lemma existsb_pystr_In f l : existsb (pystr_eqb f) l = true <-> In f l.
Proof.
  rewrite existsb_exists. split.
  - intros [x [Hx He]]. apply pystr_eqb_eq in He. subst. exact Hx.
  - intros H. exists f. split; [exact H | apply pystr_eqb_refl].
Qed.

Lemma append_new_spec fmts : forall acc,
  NoDup acc ->
  NoDup (fold_left Ckan2.append_new fmts acc) /\
  (forall f, In f (fold_left Ckan2.append_new fmts acc) <-> In f acc \/ In f fmts) /\
  (exists rest, fold_left Ckan2.append_new fmts acc = acc ++ rest).
Proof.
  induction fmts as [|x fmts IH]; intros acc Hacc; simpl.
  - split; [exact Hacc|]. split; [intros f; tauto|]. exists []. symmetry; apply app_nil_r.
  - unfold Ckan2.append_new at 2 4 6.
    destruct (existsb (pystr_eqb x) acc) eqn:E.
    + apply existsb_pystr_In in E.
      destruct (IH acc Hacc) as [Hnd [Hin Hpre]].
      split; [exact Hnd|]. split; [|exact Hpre].
      intros f. rewrite Hin. intuition (subst; auto).
    + assert (Hx : ~ In x acc).
      { intros Hx. apply existsb_pystr_In in Hx. congruence. }
      assert (Hacc' : NoDup (acc ++ [x])).
      { apply NoDup_app; [exact Hacc | repeat constructor; intros [] |].
        intros a Ha [<-|[]]. contradiction. }
      destruct (IH _ Hacc') as [Hnd [Hin [rest Hpre]]].
      split; [exact Hnd|]. split.
      * intros f. rewrite Hin, in_app_iff. simpl. intuition.
      * exists (x :: rest). rewrite Hpre, <- app_assoc. reflexivity.
Qed.

Lemma mapM_Forall2 {A B} (f : A -> result B) l : forall l',
  mapM f l = Ok l' -> Forall2 (fun x y => f x = Ok y) l l'.
Proof.
  induction l as [|x l IH]; intros l' H; simpl in H.
  - injection H as <-. constructor.
  - destruct (f x) as [y|] eqn:Ey; simpl in H; [|discriminate].
    destruct (mapM f l) as [ys|]; simpl in H; [|discriminate].
    injection H as <-. constructor; [exact Ey | apply IH; reflexivity].
Qed.

Lemma mapM_In {A B} (f : A -> result B) l l' :
  mapM f l = Ok l' ->
  forall y, In y l' <-> exists x, In x l /\ f x = Ok y.
Proof.
  intros H. apply mapM_Forall2 in H.
  induction H as [|x y l l' Hxy Hrest IH]; intros z; simpl.
  - split; [intros [] | intros [x [[] _]]].
  - rewrite IH. split.
    + intros [<-|[x' [Hx' Hz]]]; [exists x; auto | exists x'; auto].
    + intros [x' [[<-|Hx'] Hz]]; [left; congruence | right; exists x'; auto].
Qed.

(** X2: the formats the listing shows for a dataset are pairwise distinct
    and are exactly the upper-cased formats of its resources. *)
Theorem lista_formats_distinct (U : unicode) (dataset : json) (fs : list pystr) :
  Ckan2.lista_formats U dataset = Ok (Some fs) ->
  NoDup fs /\
  exists resources items,
    get dataset (str "resources") (JList []) = Ok resources /\
    iter resources = Ok items /\
    forall f, In f fs <-> exists r, In r items /\ Ckan2.format_upper U r = Ok f.
Proof.
  unfold Ckan2.lista_formats. intros H.
  destruct (get dataset (str "resources") (JList [])) as [resources|]; simpl in H;
    [|discriminate].
  destruct (truthy resources); simpl in H; [|discriminate].
  destruct (iter resources) as [items|] eqn:Ei; simpl in H; [|discriminate].
  destruct (mapM (Ckan2.format_upper U) items) as [fmts|] eqn:Em; simpl in H;
    [|discriminate].
  injection H as <-.
  destruct (append_new_spec fmts [] (NoDup_nil _)) as [Hnd [Hin _]].
  split; [exact Hnd|]. exists resources, items.
  split; [reflexivity|]. split; [exact Ei|].
  intros f. rewrite Hin, <- (mapM_In _ _ _ Em). simpl. tauto.
Qed.

Lemma lista_formats_distinct_witness :
  NoDup [str "CSV"] /\
  exists resources items,
    get dataset_subte (str "resources") (JList []) = Ok resources /\
    iter resources = Ok items /\
    forall f, In f [str "CSV"] <->
              exists r, In r items /\ Ckan2.format_upper ascii_table r = Ok f.
Proof.
  apply (lista_formats_distinct ascii_table dataset_subte [str "CSV"]). reflexivity.
Defined.

Lemma sorted_split {A} (R : A -> A -> Prop) l1 : forall l2,
  StronglySorted R (l1 ++ l2) -> forall a b, In a l1 -> In b l2 -> R a b.
Proof.
  induction l1 as [|x l1 IH]; intros l2 H a b Ha Hb; [contradiction|].
  simpl in H. inversion H as [|? ? Hs Hx]; subst.
  destruct Ha as [<-|Ha].
  - rewrite Forall_forall in Hx. apply Hx. apply in_or_app. auto.
  - exact (IH l2 Hs a b Ha Hb).
Qed.

(** X3: the organizations listed are the first ten of the sorted list, at
    most ten and all of them when there are fewer; every organization
    listed has at least as many datasets, by the integer under its
    [package_count], as every organization left out. *)
Theorem top_organizations (orgs : list json) :
  Forall organization orgs ->
  exists top rest,
    Ckan2.orgs_sorted (JList orgs) = Ok top /\
    App.top_10 (JList orgs) = Ok top /\
    length top = Nat.min 10 (length orgs) /\
    Permutation orgs (top ++ rest) /\
    forall a b, In a top -> In b rest -> (count b <= count a)%Z.
Proof.
  intros Horgs.
  destruct (sorted_reverse_spec count orgs) as [Hperm [Hsorted _]].
  pose proof (sorted_by_count orgs Horgs) as Hrun.
  exists (firstn 10 (sorted count true orgs)), (skipn 10 (sorted count true orgs)).
  split; [unfold Ckan2.orgs_sorted; rewrite Hrun; reflexivity|].
  split; [unfold App.top_10, App.orgs_sorted; rewrite Hrun; reflexivity|].
  split; [rewrite length_firstn, (Permutation_length Hperm); reflexivity|].
  rewrite firstn_skipn. split; [exact Hperm|].
  intros a b Ha Hb.
  rewrite <- (firstn_skipn 10 (sorted count true orgs)) in Hsorted.
  exact (sorted_split _ _ _ Hsorted a b Ha Hb).
Qed.

Lemma top_organizations_witness :
  exists top rest,
    Ckan2.orgs_sorted (JList doce_orgs) = Ok top /\
    App.top_10 (JList doce_orgs) = Ok top /\
    length top = Nat.min 10 (length doce_orgs) /\
    Permutation doce_orgs (top ++ rest) /\
    forall a b, In a top -> In b rest -> (count b <= count a)%Z.
Proof.
  apply (top_organizations doce_orgs).
  repeat (constructor;
          [eexists; split; [reflexivity | right; eexists; reflexivity]|]).
  constructor.
Defined.

(** Of twelve organizations the two with the fewest datasets are left
    out. *)
Example top_organizations_example :
  Ckan2.orgs_sorted (JList doce_orgs)
  = Ok [ org "jefatura" 30; org "salud" 12; org "transporte" 12; org "hacienda" 9;
         org "desarrollo" 8; org "educacion" 7; org "legislatura" 6;
         org "seguridad" 5; org "justicia" 4; org "cultura" 3 ]
  /\ map count [ org "turismo" 2; org "ambiente" 1 ] = [2; 1]%Z.
Proof. split; reflexivity. Qed.

End NamingFacts.

(** ** Searches, details and downloads in the session of the explorer *)

Module SessionExtras.
Import Py World Spec Examples MoreExamples Effects TransportFacts EffectFacts.

Lemma make_request_reply user_agent up
  (Hexc : forall req e, up req = Fails e -> isinstance e CException = true)
  endpoint params w :
  exists out,
    Transport.make_request user_agent up endpoint params w
    = (Ok (reply_result (up (Transport.catalog_request user_agent endpoint params))),
       {| current_datasets := current_datasets w; stdout := stdout w ++ out |}).
Proof.
  destruct (make_request_cases user_agent up Hexc endpoint params w)
    as [v [out [Hrun Hcase]]].
  exists out. rewrite Hrun. f_equal. f_equal. unfold reply_result.
  destruct (up (Transport.catalog_request user_agent endpoint params))
    as [e|[envelope|]]; try tauto.
  destruct (get envelope (str "success") JNull) as [success|] eqn:Es; [|tauto].
  destruct (truthy success).
  - destruct Hcase as [-> _]. reflexivity.
  - destruct Hcase as [-> _].
    destruct (get envelope (str "result") JNull); reflexivity.
Qed.

Lemma search_packages_reply up
  (Hexc : forall req e, up req = Fails e -> isinstance e CException = true)
  query rows w :
  exists out,
    Ckan2.search_packages up query rows w
    = (Ok (if truthy (search_reply up query rows)
           then search_reply up query rows else JObj []),
       {| current_datasets := current_datasets w; stdout := stdout w ++ out |}).
Proof.
  unfold Ckan2.search_packages, Transport.search_packages, bindM, search_reply.
  destruct (make_request_reply Ckan2.user_agent up Hexc (str "package_search")
              (Transport.search_params query rows) w) as [out Hrun].
  exists out. rewrite Hrun. reflexivity.
Qed.

Lemma listing_keeps_datasets U D datasets w :
  current_datasets (snd (Ckan2.mostrar_lista_datasets U D datasets w))
  = current_datasets w.
Proof.
  destruct (writes_mostrar_lista_datasets (fun _ => True) additive_true
              (fun _ _ _ => I) U D datasets w) as [out [E _]].
  rewrite E. reflexivity.
Qed.

(** X10: a search that brings no result (by topic, of the recent datasets
    or by organization) ends normally and leaves [current_datasets] as it
    was. *)
Theorem failed_search_keeps_datasets (U : unicode) (D : Datetime.library) (up : upstream)
    (Hexc : forall req e, up req = Fails e -> isinstance e CException = true)
    (query org_name : pystr) (w : session) :
  (truthy (search_reply up query 20) = false ->
   exists out,
     Ckan2.buscar_por_tema U D up query w
     = (Ok tt, {| current_datasets := current_datasets w; stdout := stdout w ++ out |})) /\
  (truthy (search_reply up [] 15) = false ->
   exists out,
     Menu.listar_recientes U D up w
     = (Ok tt, {| current_datasets := current_datasets w; stdout := stdout w ++ out |})) /\
  (truthy (search_reply up (str "organization:" ++ org_name) 20) = false ->
   exists out,
     Menu.buscar_por_organizacion U D up org_name w
     = (Ok tt, {| current_datasets := current_datasets w; stdout := stdout w ++ out |})).
Proof.
  split; [|split]; intros Hfail.
  - unfold Ckan2.buscar_por_tema, bindM, print. cbn [current_datasets stdout].
    match goal with
    | |- context [Ckan2.search_packages up query 20 ?w0] =>
        destruct (search_packages_reply up Hexc query 20 w0) as [out Hrun]
    end.
    cbn [current_datasets stdout] in Hrun. rewrite Hfail in Hrun. rewrite Hrun.
    cbn [truthy negb current_datasets stdout]. rewrite <- !app_assoc.
    eexists. reflexivity.
  - destruct (search_packages_reply up Hexc [] 15
                {| current_datasets := current_datasets w;
                   stdout := (stdout w ++ [Out "DATASETS RECIENTES" []])
                             ++ [Out (Menu.dashes 30) []] |})
      as [out Hrun].
    cbn [current_datasets stdout] in Hrun. rewrite Hfail in Hrun.
    unfold Menu.listar_recientes, bindM, print.
    cbn [current_datasets stdout]. rewrite Hrun.
    cbn [truthy negb current_datasets stdout]. rewrite <- !app_assoc.
    eexists. reflexivity.
  - destruct (search_packages_reply up Hexc (str "organization:" ++ org_name) 20 w)
      as [out Hrun].
    rewrite Hfail in Hrun.
    unfold Menu.buscar_por_organizacion, bindM. rewrite Hrun.
    cbn [truthy]. eexists. reflexivity.
Qed.

Lemma failed_search_keeps_datasets_witness :
  exists out,
    Ckan2.buscar_por_tema ascii_table Datetime.ascii_library up_http_error (str "subte") w1
    = (Ok tt, {| current_datasets := current_datasets w1; stdout := stdout w1 ++ out |}).
Proof.
  apply (proj1 (failed_search_keeps_datasets ascii_table Datetime.ascii_library
                  up_http_error up_http_error_is_exception (str "subte") (str "salud") w1)).
  reflexivity.
Defined.

(** X11: a search that brings a result replaces [current_datasets] by the
    result set of the reply, whether or not the listing that follows runs
    to its end. *)
Theorem search_replaces_datasets (U : unicode) (D : Datetime.library) (up : upstream)
    (Hexc : forall req e, up req = Fails e -> isinstance e CException = true)
    (query org_name : pystr) (w : session) :
  (forall datasets,
     truthy (search_reply up query 20) = true ->
     get (search_reply up query 20) (str "results") (JList []) = Ok datasets ->
     current_datasets (snd (Ckan2.buscar_por_tema U D up query w)) = datasets) /\
  (forall datasets,
     truthy (search_reply up [] 15) = true ->
     get (search_reply up [] 15) (str "results") (JList []) = Ok datasets ->
     current_datasets (snd (Menu.listar_recientes U D up w)) = datasets) /\
  (forall datasets,
     truthy (search_reply up (str "organization:" ++ org_name) 20) = true ->
     get (search_reply up (str "organization:" ++ org_name) 20) (str "results") (JList [])
     = Ok datasets ->
     current_datasets (snd (Menu.buscar_por_organizacion U D up org_name w)) = datasets).
Proof.
  split; [|split]; intros datasets Htrue Hget.
  - unfold Ckan2.buscar_por_tema, bindM, print. cbn [current_datasets stdout].
    match goal with
    | |- context [Ckan2.search_packages up query 20 ?w0] =>
        destruct (search_packages_reply up Hexc query 20 w0) as [out Hrun]
    end.
    cbn [current_datasets stdout] in Hrun. rewrite Htrue in Hrun. rewrite Hrun.
    rewrite Htrue. cbn [negb]. unfold lift. rewrite Hget.
    destruct (search_reply up query 20) as [| | | | |m]; try discriminate.
    cbn [get set_current_datasets current_datasets stdout].
    apply listing_keeps_datasets.
  - destruct (search_packages_reply up Hexc [] 15
                {| current_datasets := current_datasets w;
                   stdout := (stdout w ++ [Out "DATASETS RECIENTES" []])
                             ++ [Out (Menu.dashes 30) []] |})
      as [out Hrun].
    cbn [current_datasets stdout] in Hrun. rewrite Htrue in Hrun.
    unfold Menu.listar_recientes, bindM, print.
    cbn [current_datasets stdout]. rewrite Hrun.
    rewrite Htrue. cbn [negb]. unfold lift. rewrite Hget.
    cbn [set_current_datasets current_datasets stdout].
    apply listing_keeps_datasets.
  - destruct (search_packages_reply up Hexc (str "organization:" ++ org_name) 20 w)
      as [out Hrun].
    rewrite Htrue in Hrun.
    unfold Menu.buscar_por_organizacion, bindM. rewrite Hrun.
    rewrite Htrue. unfold lift. rewrite Hget.
    cbn [set_current_datasets print current_datasets stdout].
    apply listing_keeps_datasets.
Qed.

Lemma search_replaces_datasets_witness :
  current_datasets
    (snd (Ckan2.buscar_por_tema ascii_table Datetime.ascii_library up_two_results
            (str "subte") w1))
  = JList [ JObj [ (str "id", JStr (str "a")) ]; JObj [ (str "id", JStr (str "b")) ] ].
Proof.
  apply (proj1 (search_replaces_datasets ascii_table Datetime.ascii_library
                  up_two_results up_two_results_is_exception (str "subte") (str "salud") w1));
    reflexivity.
Defined.

Lemma up_sin_directorio_is_exception req e :
  up_sin_directorio req = Fails e -> isinstance e CException = true.
Proof.
  unfold up_sin_directorio. destruct (req_target req) as [filepath|]; [|discriminate].
  destruct (contains _ _); [|discriminate].
  intros H. injection H as <-. reflexivity.
Qed.

(** X8: a download never raises: it announces the file, and returns
    [True] exactly when the URL is a text and nothing was raised while the
    directory was made, the request was answered and the body was written
    to the file under [downloads]; it returns [False] in every other case,
    so also when the file cannot be written. *)
Theorem download_resource_never_raises (up : upstream)
    (Hexc : forall req e, up req = Fails e -> isinstance e CException = true)
    (url : json) (filename : pystr) (w : session) :
  exists b out,
    Ckan2.download_resource up url filename w
    = (Ok b, {| current_datasets := current_datasets w;
                stdout := stdout w ++ Out "Descargando: {}" [JStr filename] :: out |}) /\
    (b = true <->
     exists u document,
       url = JStr u /\
       up (Ckan2.download_request u (path_join (str "downloads") filename))
       = Text document).
Proof.
  unfold Ckan2.download_resource, try_except, bindM, print, lift, raise, ret.
  destruct url as [| | |u| |]; cbn [as_str dispatch isinstance current_datasets stdout];
    try (exists false; eexists; rewrite <- !app_assoc; split;
         [reflexivity | split; [discriminate | intros [u' [d [Hu _]]]; discriminate]]).
  destruct (up (Ckan2.download_request u (path_join (str "downloads") filename)))
    as [e|document] eqn:Eup.
  - pose proof (Hexc _ _ Eup) as He.
    destruct e; simpl in He; try discriminate;
      cbn [dispatch isinstance current_datasets stdout];
      exists false; eexists; rewrite <- !app_assoc;
      (split; [reflexivity |
               split; [discriminate | intros [u' [d [Hu Hd]]]; injection Hu as <-; congruence]]).
  - cbn [current_datasets stdout]. exists true. eexists. rewrite <- !app_assoc.
    split; [reflexivity | split; [intros _; exists u, document; auto | reflexivity]].
Qed.

Lemma download_resource_never_raises_witness :
  exists b out,
    Ckan2.download_resource up_sin_directorio
      (JStr (str "https://cdn.buenosaires.gob.ar/datos")) (str "ds_datos.text/csv") w0
    = (Ok b, {| current_datasets := current_datasets w0;
                stdout := stdout w0
                          ++ Out "Descargando: {}" [JStr (str "ds_datos.text/csv")] :: out |}) /\
    (b = true <->
     exists u document,
       JStr (str "https://cdn.buenosaires.gob.ar/datos") = JStr u /\
       up_sin_directorio
         (Ckan2.download_request u (path_join (str "downloads") (str "ds_datos.text/csv")))
       = Text document).
Proof.
  apply (download_resource_never_raises up_sin_directorio up_sin_directorio_is_exception).
Defined.

(** A file that cannot be opened: the media type "text/csv" of the
    resource puts a slash in the file name, the server answers, and the
    download returns [False] after the message of the last handler; under
    a name without a slash the same download returns [True]. *)
Example download_to_missing_directory :
  Ckan2.download_name ascii_table recurso_text_csv (JStr (str "ds"))
  = Ok (Some (JStr (str "https://cdn.buenosaires.gob.ar/datos"), str "ds_datos.text/csv"))
  /\ Ckan2.download_resource up_sin_directorio
       (JStr (str "https://cdn.buenosaires.gob.ar/datos")) (str "ds_datos.text/csv") w0
     = (Ok false,
        {| current_datasets := JList [];
           stdout := [ Out "Descargando: {}" [JStr (str "ds_datos.text/csv")];
                       Out "Error al descargar {}: {}" [JStr (str "ds_datos.text/csv")] ] |})
  /\ Ckan2.download_resource up_sin_directorio
       (JStr (str "https://cdn.buenosaires.gob.ar/datos")) (str "ds_datos.csv") w0
     = (Ok true,
        {| current_datasets := JList [];
           stdout := [ Out "Descargando: {}" [JStr (str "ds_datos.csv")];
                       Out "Descarga completada: {}"
                         [JStr (str "downloads/ds_datos.csv")] ] |}).
Proof. repeat split; vm_compute; reflexivity. Qed.

(** X9: a resource whose URL is missing, null or empty is not downloaded:
    whatever the server would answer, the only effect is the notice that
    the resource has no URL. *)
Theorem missing_url_no_request (U : unicode) (up : upstream)
    (resource dataset_name url : json) (w : session) :
  get resource (str "url") JNull = Ok url ->
  truthy url = false ->
  Ckan2.descargar_recurso_individual U up resource dataset_name w
  = (Ok tt, {| current_datasets := current_datasets w;
               stdout := stdout w ++ [Out "Este recurso no tiene URL de descarga." []] |}).
Proof.
  intros Hurl Hfalse.
  unfold Ckan2.descargar_recurso_individual, Ckan2.download_name, bindM, lift.
  rewrite Hurl. cbn [bind]. rewrite Hfalse. reflexivity.
Qed.

Lemma missing_url_no_request_witness :
  Ckan2.descargar_recurso_individual ascii_table up_http_error recurso_sin_url
    dataset_estaciones w0
  = (Ok tt, {| current_datasets := current_datasets w0;
               stdout := stdout w0 ++ [Out "Este recurso no tiene URL de descarga." []] |}).
Proof.
  apply (missing_url_no_request ascii_table up_http_error recurso_sin_url
           dataset_estaciones JNull w0); reflexivity.
Defined.

(** X13: the detail view and the download menu ask for a search first when
    no datasets are held, and do nothing but prompt (and say so, for a
    text that is no number) when the number typed is not between 1 and the
    number of datasets held. *)
Theorem selection_is_guarded (U : unicode) (up : upstream) (typed typed' : option Z)
    (w : session) :
  (truthy (current_datasets w) = false ->
   Menu.ver_detalles_dataset U up typed w
   = (Ok tt, {| current_datasets := current_datasets w;
                stdout := stdout w ++ [Out "Primero debes buscar datasets." []] |}) /\
   Menu.descargar_recursos U up typed typed' w
   = (Ok tt, {| current_datasets := current_datasets w;
                stdout := stdout w ++ [Out "Primero debes buscar datasets." []] |})) /\
  (forall n,
     truthy (current_datasets w) = true ->
     len (current_datasets w) = Ok n ->
     (forall c, typed = Some c -> (c < 1 \/ Z.of_nat n < c)%Z) ->
     exists notice,
       (notice = match typed with None => [Out "Seleccion invalida." []] | Some _ => [] end) /\
       Menu.ver_detalles_dataset U up typed w
       = (Ok tt, {| current_datasets := current_datasets w;
                    stdout := stdout w
                      ++ Out "Selecciona un dataset (1-{}): " [JInt (Z.of_nat n)] :: notice |}) /\
       Menu.descargar_recursos U up typed typed' w
       = (Ok tt, {| current_datasets := current_datasets w;
                    stdout := stdout w
                      ++ Out "Selecciona un dataset para descargar (1-{}): "
                             [JInt (Z.of_nat n)] :: notice |})).
Proof.
  split.
  - intros Hfalse.
    unfold Menu.ver_detalles_dataset, Menu.descargar_recursos, bindM,
      Menu.read_current_datasets.
    rewrite Hfalse. split; reflexivity.
  - intros n Htrue Hlen Hrange.
    unfold Menu.ver_detalles_dataset, Menu.descargar_recursos, Menu.try_value_error,
      Menu.input_int, bindM, Menu.read_current_datasets, lift, print, raise, ret.
    rewrite Htrue, Hlen. cbn [negb current_datasets stdout].
    destruct typed as [c|].
    + exists []. split; [reflexivity|].
      assert (Hc : ((1 <=? c) && (c <=? Z.of_nat n))%Z = false).
      { destruct (Hrange c eq_refl);
          [ rewrite (proj2 (Z.leb_gt 1 c)) by lia; reflexivity
          | rewrite (proj2 (Z.leb_gt c (Z.of_nat n))) by lia; apply andb_false_r ]. }
      rewrite Hc. split; reflexivity.
    + exists [Out "Seleccion invalida." []]. split; [reflexivity|].
      cbn [Menu.is_value_error current_datasets stdout].
      rewrite <- !app_assoc. split; reflexivity.
Qed.

Lemma selection_is_guarded_witness :
  exists notice,
    (notice = []) /\
    Menu.ver_detalles_dataset ascii_table up_http_error (Some 2%Z) w1
    = (Ok tt, {| current_datasets := current_datasets w1;
                 stdout := stdout w1
                   ++ Out "Selecciona un dataset (1-{}): " [JInt (Z.of_nat 1)] :: notice |}) /\
    Menu.descargar_recursos ascii_table up_http_error (Some 2%Z) None w1
    = (Ok tt, {| current_datasets := current_datasets w1;
                 stdout := stdout w1
                   ++ Out "Selecciona un dataset para descargar (1-{}): "
                          [JInt (Z.of_nat 1)] :: notice |}).
Proof.
  apply (proj2 (selection_is_guarded ascii_table up_http_error (Some 2%Z) None w1) 1).
  - reflexivity.
  - reflexivity.
  - intros c H. injection H as <-. right. simpl. lia.
Defined.

Lemma no_download_line text values :
  is_line "Descargando: {}" (Out text values) = false -> no_download [Out text values].
Proof. intros H. constructor; [exact H | constructor]. Qed.

(** X15: in the download menu of a dataset the choice 0, a negative
    number or a text that is no number starts no download and leaves
    [current_datasets] as it was. *)
Theorem declined_download_starts_none (U : unicode) (up : upstream) (typed : option Z)
    (dataset : json) (w : session) :
  (forall c, typed = Some c -> (c <= 0)%Z) ->
  exists out,
    snd (Menu.descargar_recursos_dataset U up typed dataset w)
    = {| current_datasets := current_datasets w; stdout := stdout w ++ out |} /\
    no_download out.
Proof.
  intros Htyped. revert w.
  change (writes no_download (Menu.descargar_recursos_dataset U up typed dataset)).
  pose proof additive_no_download as HQ.
  pose proof no_download_line as Hline.
  assert (Hlist : forall i r, writes no_download (Menu.listar_recurso U i r)).
  { intros i r. unfold Menu.listar_recurso. repeat writes_step. }
  unfold Menu.descargar_recursos_dataset, Ckan2.get_package_info,
    Transport.get_package_info.
  repeat writes_step; try apply Hlist.
  apply writes_try_value_error; [exact HQ | | repeat writes_step].
  apply writes_input; [exact HQ | apply Hline; reflexivity |].
  intros c Hc. specialize (Htyped c Hc).
  destruct (Z.eqb_spec c 0); [repeat writes_step|].
  match goal with
  | |- context [(c =? ?x)%Z] =>
      replace (c =? x)%Z with false by (symmetry; apply Z.eqb_neq; lia)
  end.
  replace (1 <=? c)%Z with false by (symmetry; apply Z.leb_gt; lia).
  cbn [andb]. repeat writes_step.
Qed.

Lemma declined_download_starts_none_witness :
  exists out,
    snd (Menu.descargar_recursos_dataset ascii_table up_detail (Some 0%Z) dataset_subte w0)
    = {| current_datasets := current_datasets w0; stdout := stdout w0 ++ out |} /\
    no_download out.
Proof.
  apply (declined_download_starts_none ascii_table up_detail (Some 0%Z) dataset_subte w0).
  intros c H. injection H as <-. lia.
Defined.

(** X12: listing datasets and viewing the details of one never change
    [current_datasets], only add lines to the output, and start no
    download, for every input and every answer of the catalogue. *)
Theorem browsing_only_prints (U : unicode) (D : Datetime.library) (up : upstream)
    (datasets dataset : json) (w : session) :
  (exists out,
     snd (Ckan2.mostrar_lista_datasets U D datasets w)
     = {| current_datasets := current_datasets w; stdout := stdout w ++ out |} /\
     no_download out) /\
  (exists out,
     snd (Ckan2.mostrar_detalles_completos U up dataset w)
     = {| current_datasets := current_datasets w; stdout := stdout w ++ out |} /\
     no_download out).
Proof.
  split.
  - apply (writes_mostrar_lista_datasets no_download additive_no_download
             no_download_line U D datasets w).
  - apply (writes_mostrar_detalles_completos no_download additive_no_download
             no_download_line U up dataset w).
Qed.

End SessionExtras.

(** ** The views of the real-time services *)

Module RealtimeFacts.
Import Py World Spec Examples MoreExamples Effects TransportFacts EffectFacts.

(** The lines of [out] that come from the format string [text]. *)
Lemma count_app text (o1 o2 : list event) :
  length (filter (is_line text) (o1 ++ o2))
  = length (filter (is_line text) o1) + length (filter (is_line text) o2).
Proof. rewrite filter_app, length_app. reflexivity. Qed.

Lemma for_each_count {A} text (f : Z -> A -> M unit) :
  (forall i x w, exists out,
      snd (f i x w) = {| current_datasets := current_datasets w; stdout := stdout w ++ out |}
      /\ length (filter (is_line text) out) <= 1) ->
  forall l i w, exists out,
    snd (Ckan2.for_each f i l w)
    = {| current_datasets := current_datasets w; stdout := stdout w ++ out |}
    /\ length (filter (is_line text) out) <= length l.
Proof.
  intros Hf. induction l as [|x l IH]; intros i w; simpl.
  - exists []. split; [apply session_eta | simpl; lia].
  - unfold bindM. destruct (Hf i x w) as [o1 [E1 L1]].
    destruct (f i x w) as [[[]|e] w1]; simpl in E1; subst w1.
    + destruct (IH (i + 1)%Z {| current_datasets := current_datasets w;
                                stdout := stdout w ++ o1 |}) as [o2 [E2 L2]].
      exists (o1 ++ o2). simpl in E2. rewrite E2, app_assoc, count_app.
      split; [reflexivity | lia].
    + exists o1. split; [reflexivity | lia].
Qed.

Lemma sliced_items n v first items k :
  slice n v = Ok first -> iter first = Ok items -> len v = Ok k ->
  length items <= Nat.min n k.
Proof.
  destruct v as [| | |s|l|m]; simpl; try discriminate; intros H; injection H as <-;
    simpl; intros H; injection H as <-; intros H; injection H as <-.
  - rewrite length_map. unfold slice_to. rewrite length_firstn. lia.
  - rewrite length_firstn. lia.
Qed.

Lemma make_api_request_document up url params document w :
  up (Transport.realtime_request Ckan2.user_agent url params) = Text (Some document) ->
  Realtime.make_api_request up url params w = (Ok document, w).
Proof.
  intros Hup.
  unfold Realtime.make_api_request, Transport.make_api_request, try_except, fetch_json.
  rewrite Hup. reflexivity.
Qed.

Ltac silent := exists []; split; [apply session_eta | simpl; lia].

Lemma mostrar_alerta_count i alert w :
  exists out,
    snd (Realtime.mostrar_alerta i alert w)
    = {| current_datasets := current_datasets w; stdout := stdout w ++ out |}
    /\ length (filter (is_line "{}. {}...") out) <= 1.
Proof.
  unfold Realtime.mostrar_alerta, bindM, lift, Ckan2.when, print, ret.
  destruct (get alert (str "alert") (JObj [])) as [alert_info|]; [|silent].
  destruct (get alert_info (str "description_text") (JObj [])) as [dt|]; [|silent].
  destruct (get dt (str "translation") (JList [])) as [description|]; [|silent].
  destruct (truthy description); [|silent].
  destruct (Menu.item description 0) as [first|]; [|silent].
  destruct (get first (str "text") (JStr Ckan2.sin_descripcion)) as [text|]; [|silent].
  destruct (slice 100 text) as [shown|]; [|silent].
  eexists. split; [reflexivity | simpl; lia].
Qed.

(** X16: the subway view tells how many alerts the feed carries and shows
    at most five of them. *)
Theorem subte_lists_at_most_five (up : upstream) (subte_data alerts : json) (n : nat)
    (w : session) :
  up (Transport.realtime_request Ckan2.user_agent
        (Realtime.transport_api ++ str "/subte/serviceAlerts") [])
  = Text (Some subte_data) ->
  truthy subte_data = true ->
  get subte_data (str "entity") (JList []) = Ok alerts ->
  truthy alerts = true ->
  len alerts = Ok n ->
  exists out,
    snd (Realtime.mostrar_subte_status up w)
    = {| current_datasets := current_datasets w;
         stdout := stdout w
           ++ [ Out "ESTADO DEL SUBTE" []; Out (Menu.dashes 25) [];
                Out "Obteniendo estado de lineas..." [];
                Out "Alertas activas ({}):" [JInt (Z.of_nat n)] ] ++ out |}
    /\ length (filter (is_line "{}. {}...") out) <= Nat.min 5 n.
Proof.
  intros Hup Hdata Hentity Halerts Hlen.
  unfold Realtime.mostrar_subte_status, Realtime.get_subte_status, bindM, print, lift.
  cbn [current_datasets stdout].
  rewrite (make_api_request_document up _ _ subte_data _ Hup).
  rewrite Hdata. cbn [negb]. rewrite Hentity, Halerts, Hlen.
  cbn [current_datasets stdout]. rewrite <- !app_assoc. cbn [app].
  destruct (slice 5 alerts) as [first|] eqn:Es;
    [|exists []; split; [reflexivity | simpl; lia]].
  destruct (iter first) as [items|] eqn:Ei;
    [|exists []; split; [reflexivity | simpl; lia]].
  pose proof (sliced_items 5 alerts first items n Es Ei Hlen) as H5.
  match goal with
  | |- context [Ckan2.for_each _ _ _ ?w1] =>
      destruct (for_each_count "{}. {}..." Realtime.mostrar_alerta mostrar_alerta_count
                  items 1%Z w1) as [out [E L]]
  end.
  exists out. rewrite E. cbn [current_datasets stdout]. rewrite <- !app_assoc.
  split; [reflexivity | lia].
Qed.

Lemma subte_lists_at_most_five_witness :
  exists out,
    snd (Realtime.mostrar_subte_status up_subte w0)
    = {| current_datasets := current_datasets w0;
         stdout := stdout w0
           ++ [ Out "ESTADO DEL SUBTE" []; Out (Menu.dashes 25) [];
                Out "Obteniendo estado de lineas..." [];
                Out "Alertas activas ({}):" [JInt (Z.of_nat 6)] ] ++ out |}
    /\ length (filter (is_line "{}. {}...") out) <= Nat.min 5 6.
Proof.
  apply (subte_lists_at_most_five up_subte (JObj [ (str "entity", seis_alertas) ])
           seis_alertas 6 w0); reflexivity.
Defined.

Lemma mostrar_corte_count i corte w :
  exists out,
    snd (Realtime.mostrar_corte i corte w)
    = {| current_datasets := current_datasets w; stdout := stdout w ++ out |}
    /\ length (filter (is_line "{}. {}") out) <= 1.
Proof.
  unfold Realtime.mostrar_corte, bindM, lift, Ckan2.when, print, ret.
  destruct (get corte (str "calle") (JStr (str "N/A"))) as [calle|]; [|silent].
  destruct (get corte (str "motivo") (JStr (str "Sin especificar"))) as [motivo|];
    [|silent].
  destruct (get corte (str "desde") (JStr [])) as [desde|]; [|silent].
  destruct (get corte (str "hasta") (JStr [])) as [hasta|]; [|silent].
  destruct (truthy desde || truthy hasta); cbn [current_datasets stdout];
    rewrite <- !app_assoc; eexists; (split; [reflexivity | simpl; lia]).
Qed.

(** X17: the traffic view tells how many closures are reported and shows
    at most ten of them. *)
Theorem transito_lists_at_most_ten (up : upstream) (traffic_data cortes : json) (n : nat)
    (w : session) :
  up (Transport.realtime_request Ckan2.user_agent
        (Realtime.transport_api ++ str "/transito/cortes") [])
  = Text (Some traffic_data) ->
  get traffic_data (str "cortes") (JList []) = Ok cortes ->
  truthy cortes = true ->
  len cortes = Ok n ->
  exists out,
    snd (Realtime.mostrar_estado_transito up w)
    = {| current_datasets := current_datasets w;
         stdout := stdout w
           ++ [ Out "ESTADO DEL TRANSITO" []; Out (Menu.dashes 30) [];
                Out "Obteniendo informacion de transito..." [];
                Out "Cortes de transito activos ({}):" [JInt (Z.of_nat n)] ] ++ out |}
    /\ length (filter (is_line "{}. {}") out) <= Nat.min 10 n.
Proof.
  intros Hup Hcortes Htrue Hlen.
  assert (Hdata : truthy traffic_data = true).
  { destruct traffic_data as [| | | | |m]; try discriminate.
    destruct m; [|reflexivity]. simpl in Hcortes. injection Hcortes as <-. discriminate. }
  unfold Realtime.mostrar_estado_transito, Realtime.get_traffic_info, bindM, print, lift.
  cbn [current_datasets stdout].
  rewrite (make_api_request_document up _ _ traffic_data _ Hup).
  rewrite Hdata. cbn [negb].
  destruct traffic_data as [| | | | |m]; try discriminate.
  rewrite Hcortes, Htrue, Hlen.
  cbn [current_datasets stdout]. rewrite <- !app_assoc. cbn [app].
  destruct (slice 10 cortes) as [first|] eqn:Es;
    [|exists []; split; [reflexivity | simpl; lia]].
  destruct (iter first) as [items|] eqn:Ei;
    [|exists []; split; [reflexivity | simpl; lia]].
  pose proof (sliced_items 10 cortes first items n Es Ei Hlen) as H10.
  match goal with
  | |- context [Ckan2.for_each _ _ _ ?w1] =>
      destruct (for_each_count "{}. {}" Realtime.mostrar_corte mostrar_corte_count
                  items 1%Z w1) as [out [E L]]
  end.
  exists out. rewrite E. cbn [current_datasets stdout]. rewrite <- !app_assoc.
  split; [reflexivity | lia].
Qed.

Lemma transito_lists_at_most_ten_witness :
  exists out,
    snd (Realtime.mostrar_estado_transito up_transito w0)
    = {| current_datasets := current_datasets w0;
         stdout := stdout w0
           ++ [ Out "ESTADO DEL TRANSITO" []; Out (Menu.dashes 30) [];
                Out "Obteniendo informacion de transito..." [];
                Out "Cortes de transito activos ({}):" [JInt (Z.of_nat 1)] ] ++ out |}
    /\ length (filter (is_line "{}. {}") out) <= Nat.min 10 1.
Proof.
  apply (transito_lists_at_most_ten up_transito (JObj [ (str "cortes", un_corte) ])
           un_corte 1 w0); reflexivity.
Defined.

(** X18: a reply of the traffic service that is not an object (a list, a
    text, a number) is taken as no closures: the view says that the
    traffic is normal and does not raise. *)
Theorem transito_tolerates_other_shapes (up : upstream) (traffic_data : json)
    (w : session) :
  up (Transport.realtime_request Ckan2.user_agent
        (Realtime.transport_api ++ str "/transito/cortes") [])
  = Text (Some traffic_data) ->
  truthy traffic_data = true ->
  (forall members, traffic_data <> JObj members) ->
  Realtime.mostrar_estado_transito up w
  = (Ok tt,
     {| current_datasets := current_datasets w;
        stdout := stdout w
          ++ [ Out "ESTADO DEL TRANSITO" []; Out (Menu.dashes 30) [];
               Out "Obteniendo informacion de transito..." [];
               Out "No hay cortes de transito reportados" [];
               Out "El trafico fluye con normalidad" [] ] |}).
Proof.
  intros Hup Hdata Hshape.
  unfold Realtime.mostrar_estado_transito, Realtime.get_traffic_info, bindM, print, lift.
  cbn [current_datasets stdout].
  rewrite (make_api_request_document up _ _ traffic_data _ Hup).
  rewrite Hdata. cbn [negb].
  destruct traffic_data as [| | | | |m];
    try (cbn [truthy current_datasets stdout]; rewrite <- !app_assoc; reflexivity).
  exfalso. exact (Hshape m eq_refl).
Qed.

Lemma transito_tolerates_other_shapes_witness :
  Realtime.mostrar_estado_transito up_list w0
  = (Ok tt,
     {| current_datasets := current_datasets w0;
        stdout := stdout w0
          ++ [ Out "ESTADO DEL TRANSITO" []; Out (Menu.dashes 30) [];
               Out "Obteniendo informacion de transito..." [];
               Out "No hay cortes de transito reportados" [];
               Out "El trafico fluye con normalidad" [] ] |}).
Proof.
  apply (transito_tolerates_other_shapes up_list (JList [ JInt 1 ]) w0).
  - reflexivity.
  - reflexivity.
  - discriminate.
Defined.

(** X7: the real-time request of the dashboard returns a value whatever
    the request does; on a failure it returns [None] and shows one message:
    the advice about authentication for the status 401, the one about the
    rate limit for 429, the HTTP error for any other status. *)
Theorem dashboard_api_request_never_raises (up : upstream)
    (Hexc : forall req e, up req = Fails e -> isinstance e CException = true)
    (url : pystr) (params : list (pystr * json)) (w : session) :
  exists v out,
    AppRealtime.make_api_request up url params w
    = (Ok v, {| current_datasets := current_datasets w; stdout := stdout w ++ out |}) /\
    (request_failed (up (Transport.realtime_request App.user_agent url params)) = true ->
     v = JNull /\ length out = 1) /\
    (forall code reason,
       up (Transport.realtime_request App.user_agent url params)
       = Fails (HTTPError code reason) ->
       out = [ if (code =? 401)%Z then Out "API requiere autenticacion" []
               else if (code =? 429)%Z then Out "Limite de requests excedido" []
               else Out "Error HTTP {}: {}" [JInt code; JStr reason] ]).
Proof.
  unfold AppRealtime.make_api_request, try_except, bindM, fetch_json, raise, ret, print.
  destruct (up (Transport.realtime_request App.user_agent url params))
    as [e|[document|]] eqn:Eup.
  - pose proof (Hexc _ _ Eup) as He.
    destruct e as [code reason| | | | | | | | | | |]; simpl in He; try discriminate;
      cbn [dispatch isinstance exn_code exn_values current_datasets stdout];
      try (eexists; eexists; split; [reflexivity |
             split; [intros _; split; reflexivity | intros c r Hc; discriminate]]).
    destruct (code =? 401)%Z eqn:E1; [|destruct (code =? 429)%Z eqn:E2];
      cbn [current_datasets stdout]; eexists; eexists;
      (split; [reflexivity |
         split; [intros _; split; reflexivity |
                 intros c r Hc; injection Hc as <- <-; rewrite ?E1, ?E2; reflexivity]]).
  - exists document, []. rewrite app_nil_r. destruct w.
    split; [reflexivity | split; [discriminate | discriminate]].
  - cbn [dispatch isinstance current_datasets stdout]. eexists; eexists.
    split; [reflexivity | split; [intros _; split; reflexivity | discriminate]].
Qed.

Lemma dashboard_api_request_never_raises_witness :
  exists v out,
    AppRealtime.make_api_request up_http_error
      (str "https://api-transporte.buenosaires.gob.ar/subte/serviceAlerts") [] w0
    = (Ok v, {| current_datasets := current_datasets w0; stdout := stdout w0 ++ out |}) /\
    (request_failed
       (up_http_error
          (Transport.realtime_request App.user_agent
             (str "https://api-transporte.buenosaires.gob.ar/subte/serviceAlerts") []))
     = true -> v = JNull /\ length out = 1) /\
    (forall code reason,
       up_http_error
         (Transport.realtime_request App.user_agent
            (str "https://api-transporte.buenosaires.gob.ar/subte/serviceAlerts") [])
       = Fails (HTTPError code reason) ->
       out = [ if (code =? 401)%Z then Out "API requiere autenticacion" []
               else if (code =? 429)%Z then Out "Limite de requests excedido" []
               else Out "Error HTTP {}: {}" [JInt code; JStr reason] ]).
Proof.
  apply (dashboard_api_request_never_raises up_http_error up_http_error_is_exception).
Defined.

End RealtimeFacts.

(** ** The data frame of the dashboard *)

Module DashboardFacts.
Import Py World Spec Examples MoreExamples TextFacts NamingFacts.

Lemma process_dataset_fields set_order dataset r :
  App.process_dataset set_order dataset = Ok r ->
  get dataset (str "id") (JStr []) = Ok (App.id r) /\
  get dataset (str "title") (JStr Ckan2.sin_titulo) = Ok (App.titulo r) /\
  exists resources,
    get dataset (str "resources") (JList []) = Ok resources /\
    len resources = Ok (App.num_recursos r).
Proof.
  unfold App.process_dataset. intros H.
  destruct (App.org_name dataset) as [org|]; simpl in H; [|discriminate].
  destruct (App.formats dataset) as [fmts|]; simpl in H; [|discriminate].
  destruct (get dataset (str "title") (JStr Ckan2.sin_titulo)) as [title|];
    simpl in H; [|discriminate].
  destruct (App.dataset_fecha dataset) as [fecha|]; simpl in H; [|discriminate].
  destruct (get dataset (str "resources") (JList [])) as [resources|];
    simpl in H; [|discriminate].
  destruct (len resources) as [n|] eqn:En; simpl in H; [|discriminate].
  destruct (mapM as_str fmts) as [strs|]; simpl in H; [|discriminate].
  destruct (get dataset (str "id") (JStr [])) as [ident|]; simpl in H; [|discriminate].
  destruct (App.dataset_descripcion dataset) as [desc|]; simpl in H; [|discriminate].
  injection H as <-. simpl. split; [reflexivity|]. split; [reflexivity|].
  exists resources. split; [reflexivity | exact En].
Qed.

(** X19: [process_datasets] gives no row for a result without [results],
    and otherwise one row per dataset, in the order of the reply, each with
    the id, the title and the number of resources of its dataset. *)
Theorem process_datasets_one_row_each (set_order : list pystr -> list pystr)
    (members : list (pystr * json)) :
  (lookup (str "results") members = None ->
   App.process_datasets set_order (JObj members) = Ok []) /\
  (forall datasets rows,
     lookup (str "results") members = Some (JList datasets) ->
     App.process_datasets set_order (JObj members) = Ok rows ->
     Forall2 (fun dataset r =>
                get dataset (str "id") (JStr []) = Ok (App.id r) /\
                get dataset (str "title") (JStr Ckan2.sin_titulo) = Ok (App.titulo r) /\
                exists resources,
                  get dataset (str "resources") (JList []) = Ok resources /\
                  len resources = Ok (App.num_recursos r))
             datasets rows).
Proof.
  split.
  - intros Hnone. unfold App.process_datasets, App.has_results.
    destruct members; [reflexivity|]. cbn [truthy negb bind]. rewrite Hnone. reflexivity.
  - intros datasets rows Hsome Hrun.
    unfold App.process_datasets, App.has_results, App.item_results in Hrun.
    destruct members as [|kv members]; [discriminate|].
    cbn [truthy negb bind] in Hrun. rewrite Hsome in Hrun.
    cbn [negb bind iter] in Hrun.
    apply mapM_Forall2 in Hrun.
    eapply Forall2_impl; [|exact Hrun].
    intros dataset r. apply process_dataset_fields.
Qed.

Lemma process_datasets_one_row_each_witness :
  Forall2 (fun dataset r =>
             get dataset (str "id") (JStr []) = Ok (App.id r) /\
             get dataset (str "title") (JStr Ckan2.sin_titulo) = Ok (App.titulo r) /\
             exists resources,
               get dataset (str "resources") (JList []) = Ok resources /\
               len resources = Ok (App.num_recursos r))
          [dataset_subte] [fila_subte]
  /\ App.process_datasets (fun l => l) (JObj [ (str "count", JInt 2) ]) = Ok [].
Proof.
  split.
  - apply (proj2 (process_datasets_one_row_each (fun l => l)
                    [ (str "results", JList [dataset_subte]) ])
             [dataset_subte] [fila_subte]).
    + reflexivity.
    + vm_compute. reflexivity.
  - apply (proj1 (process_datasets_one_row_each (fun l => l) [ (str "count", JInt 2) ])).
    reflexivity.
Defined.

(** X20: the description the dashboard shows is never empty and never
    longer than 153 characters; the one the listing of the command line
    shows is never longer than 103. *)
Theorem descriptions_are_bounded (dataset : json) :
  (forall s, App.dataset_descripcion dataset = Ok s -> 0 < length s <= 153) /\
  (forall s, Ckan2.lista_notes dataset = Ok (JStr s) -> length s <= 103).
Proof.
  split; intros s H.
  - unfold App.dataset_descripcion in H.
    destruct (get dataset (str "notes") JNull) as [notes|]; cbn [bind] in H;
      [|discriminate].
    destruct (truthy notes).
    + destruct (get dataset (str "notes") (JStr Ckan2.sin_descripcion)) as [notes'|];
        cbn [bind] in H; [|discriminate].
      destruct notes' as [| | |s0| |]; try discriminate.
      assert (Hs : s = slice_to 150 s0 ++ str "...") by congruence.
      rewrite Hs, length_app. unfold slice_to.
      pose proof (firstn_le_length 150 s0).
      change (length (str "...")) with 3. lia.
    + assert (Hs : s = Ckan2.sin_descripcion) by congruence.
      rewrite Hs. change (length Ckan2.sin_descripcion) with 15. lia.
  - unfold Ckan2.lista_notes in H.
    destruct (get dataset (str "notes") (JStr Ckan2.sin_descripcion)) as [notes|];
      cbn [bind] in H; [|discriminate].
    destruct notes as [| | |s0|l|m]; cbn [abbreviate] in H; try discriminate.
    + assert (Hs : s = if 100 <? length s0 then slice_to 100 s0 ++ str "..." else s0)
        by congruence.
      rewrite Hs. destruct (Nat.ltb_spec 100 (length s0)).
      * rewrite length_app. unfold slice_to.
        pose proof (firstn_le_length 100 s0).
        change (length (str "...")) with 3. lia.
      * lia.
    + destruct (100 <? length l); discriminate.
    + destruct (100 <? length m); discriminate.
Qed.

Lemma descriptions_are_bounded_witness :
  0 < length (str "Datos de subte...") <= 153.
Proof.
  apply (proj1 (descriptions_are_bounded dataset_subte)). reflexivity.
Defined.

Lemma filter_swap {A} (f g : A -> bool) l :
  filter f (filter g l) = filter g (filter f l).
Proof.
  induction l as [|x l IH]; [reflexivity|].
  simpl. destruct (g x) eqn:Eg, (f x) eqn:Ef; simpl; rewrite ?Eg, ?Ef, IH; reflexivity.
Qed.

(** X21: the filters of the search page only narrow the rows; the choices
    "Todas" and "Todos" change nothing; filtering by organization and by
    format at once is filtering by one and then by the other, in either
    order. *)
Theorem filters_compose (org_filter : pystr) (format_filter : App.format_choice)
    (df : list App.row) :
  App.apply_filters (str "Todas") App.Todos df = df /\
  App.apply_filters org_filter format_filter df
  = App.apply_filters org_filter App.Todos
      (App.apply_filters (str "Todas") format_filter df) /\
  App.apply_filters org_filter format_filter df
  = App.apply_filters (str "Todas") format_filter
      (App.apply_filters org_filter App.Todos df) /\
  length (App.apply_filters org_filter format_filter df) <= length df.
Proof.
  unfold App.apply_filters.
  replace (pystr_eqb (str "Todas") (str "Todas")) with true by reflexivity.
  replace (pystr_eqb (App.format_label App.Todos) (str "Todos")) with true by reflexivity.
  cbn [negb].
  destruct (negb (pystr_eqb org_filter (str "Todas")));
    destruct (negb (pystr_eqb (App.format_label format_filter) (str "Todos")));
    repeat split; try reflexivity; try apply filter_swap;
    repeat (etransitivity; [apply filter_length_le|]); lia.
Qed.

End DashboardFacts.

(** ** More on the transport layer, the menu and the sanitizer *)

Module MoreFacts.
Import Py World Spec Examples MoreExamples Effects TextFacts TransportFacts EffectFacts SessionExtras.

(** X5: a call to the catalogue prints at most one line, and none when it
    returns a value other than [None]. *)
Theorem make_request_prints_on_failure_only (user_agent : pystr) (up : upstream)
    (Hexc : forall req e, up req = Fails e -> isinstance e CException = true)
    (endpoint : pystr) (params : list (pystr * json)) (w : session) :
  exists v out,
    Transport.make_request user_agent up endpoint params w
    = (Ok v, {| current_datasets := current_datasets w; stdout := stdout w ++ out |}) /\
    length out <= 1 /\
    (v <> JNull -> out = []).
Proof.
  destruct (make_request_cases user_agent up Hexc endpoint params w)
    as [v [out [Hrun Hcase]]].
  exists v, out. split; [exact Hrun|].
  destruct (up (Transport.catalog_request user_agent endpoint params))
    as [e|[envelope|]].
  - destruct Hcase as [-> [t [vs ->]]]. split; [simpl; lia | congruence].
  - destruct (get envelope (str "success") JNull) as [success|].
    + destruct (truthy success).
      * destruct Hcase as [_ ->]. split; [simpl; lia | reflexivity].
      * destruct Hcase as [-> [err [_ ->]]]. split; [simpl; lia | congruence].
    + destruct Hcase as [-> ->]. split; [simpl; lia | congruence].
  - destruct Hcase as [-> [t [vs ->]]]. split; [simpl; lia | congruence].
Qed.

Lemma make_request_prints_on_failure_only_witness :
  exists v out,
    Transport.make_request Ckan2.user_agent up_two_results (str "package_search") [] w0
    = (Ok v, {| current_datasets := current_datasets w0; stdout := stdout w0 ++ out |}) /\
    length out <= 1 /\
    (v <> JNull -> out = []).
Proof.
  apply (make_request_prints_on_failure_only Ckan2.user_agent up_two_results
           up_two_results_is_exception).
Defined.

(** X6: when the request brings no JSON document, the search returns the
    empty dict and the two list calls the empty list, where the detail
    call returns [None]. *)
Theorem adapters_fall_back_to_empty (up : upstream)
    (Hexc : forall req e, up req = Fails e -> isinstance e CException = true)
    (query : pystr) (rows : Z) (package_id : json) (w : session) :
  (request_failed (up (Transport.catalog_request Ckan2.user_agent (str "package_search")
                         (Transport.search_params query rows))) = true ->
   fst (Ckan2.search_packages up query rows w) = Ok (JObj [])) /\
  (request_failed (up (Transport.catalog_request Ckan2.user_agent (str "organization_list")
                         [(str "all_fields", JStr (str "true"))])) = true ->
   fst (Ckan2.get_organizations up w) = Ok (JList [])) /\
  (request_failed (up (Transport.catalog_request Ckan2.user_agent (str "package_list") []))
   = true ->
   fst (Menu.get_package_list up w) = Ok (JList [])) /\
  (request_failed (up (Transport.catalog_request Ckan2.user_agent (str "package_show")
                         [(str "id", package_id)])) = true ->
   fst (Ckan2.get_package_info up package_id w) = Ok JNull).
Proof.
  assert (Hnull : forall endpoint params,
             request_failed (up (Transport.catalog_request Ckan2.user_agent endpoint params))
             = true ->
             exists out,
               Transport.make_request Ckan2.user_agent up endpoint params w
               = (Ok JNull, {| current_datasets := current_datasets w;
                               stdout := stdout w ++ out |})).
  { intros endpoint params Hf.
    destruct (make_request_reply Ckan2.user_agent up Hexc endpoint params w) as [out Hrun].
    exists out. rewrite Hrun. unfold reply_result.
    destruct (up (Transport.catalog_request Ckan2.user_agent endpoint params))
      as [e|[envelope|]]; try reflexivity. discriminate. }
  repeat split; intros Hf; destruct (Hnull _ _ Hf) as [out Hrun].
  - unfold Ckan2.search_packages, Transport.search_packages, bindM. rewrite Hrun.
    reflexivity.
  - unfold Ckan2.get_organizations, Transport.get_organizations, bindM. rewrite Hrun.
    reflexivity.
  - unfold Menu.get_package_list, bindM. rewrite Hrun. reflexivity.
  - unfold Ckan2.get_package_info, Transport.get_package_info. rewrite Hrun. reflexivity.
Qed.

Lemma adapters_fall_back_to_empty_witness :
  fst (Ckan2.search_packages up_http_error (str "subte") 20 w0) = Ok (JObj []).
Proof.
  apply (proj1 (adapters_fall_back_to_empty up_http_error
                  up_http_error_is_exception (str "subte") 20
                  (JStr (str "subte-estaciones")) w0)).
  reflexivity.
Defined.

Lemma writes_lift_bind {A B} (Q : list event -> Prop) (HQ : additive Q)
    (r : result A) (k : A -> M B) :
  (forall a, r = Ok a -> writes Q (k a)) -> writes Q (bindM (lift r) k).
Proof.
  intros Hk w. unfold bindM, lift. destruct r as [a|e].
  - apply (Hk a eq_refl).
  - exists []. split; [apply session_eta | apply HQ].
Qed.

(** X14: in the organization menu a number below 1 or above 10, or a text
    that is no number, starts no search: [current_datasets] stays as it
    was. *)
Theorem organization_choice_is_guarded (U : unicode) (D : Datetime.library)
    (up : upstream) (typed : option Z) (w : session) :
  (forall c, typed = Some c -> (c < 1 \/ 10 < c)%Z) ->
  exists out,
    snd (Menu.ver_por_organizacion U D up typed w)
    = {| current_datasets := current_datasets w; stdout := stdout w ++ out |}.
Proof.
  intros Htyped.
  assert (H : writes (fun _ => True) (Menu.ver_por_organizacion U D up typed)).
  { pose proof additive_true as HQ.
    assert (Hline : forall text values,
               is_line "Descargando: {}" (Out text values) = false ->
               (fun _ : list event => True) [Out text values]) by (intros; exact I).
    assert (Horg : forall i org, writes (fun _ => True) (Menu.mostrar_org i org)).
    { intros i org. unfold Menu.mostrar_org. repeat writes_step. }
    unfold Menu.ver_por_organizacion.
    do 3 (apply writes_bind; [exact HQ | apply writes_print; exact I | intros _]).
    apply writes_bind; [exact HQ | apply writes_get_organizations; assumption | intros orgs].
    destruct (negb (truthy orgs)); [apply writes_print; exact I|].
    apply writes_lift_bind; [exact HQ|]. intros top Htop.
    assert (Hlen : length top <= 10).
    { unfold Ckan2.orgs_sorted in Htop.
      destruct (Ckan2.sorted_by_package_count orgs) as [l|]; cbn [bind] in Htop;
        [|discriminate].
      assert (Ht : top = firstn 10 l) by congruence.
      rewrite Ht, length_firstn. lia. }
    apply writes_bind; [exact HQ | apply writes_print; exact I | intros _].
    apply writes_bind; [exact HQ | apply writes_for_each; [exact HQ | exact Horg] | intros _].
    apply writes_try_value_error; [exact HQ | | apply writes_print; exact I].
    apply writes_input; [exact HQ | exact I |].
    intros c Hc. specialize (Htyped c Hc).
    replace ((1 <=? c) && (c <=? Z.of_nat (length top)))%Z with false;
      [apply writes_ret; exact HQ|].
    symmetry. apply andb_false_iff.
    destruct Htyped; [left; apply Z.leb_gt; lia | right; apply Z.leb_gt; lia]. }
  destruct (H w) as [out [E _]]. exists out. exact E.
Qed.

Lemma organization_choice_is_guarded_witness :
  exists out,
    snd (Menu.ver_por_organizacion ascii_table Datetime.ascii_library up_orgs (Some 0%Z) w1)
    = {| current_datasets := current_datasets w1; stdout := stdout w1 ++ out |}.
Proof.
  apply (organization_choice_is_guarded ascii_table Datetime.ascii_library up_orgs
           (Some 0%Z) w1).
  intros c H. injection H as <-. left. lia.
Defined.

Lemma length_dropwhile p s : length (dropwhile p s) <= length s.
Proof.
  induction s as [|c s IH]; simpl; [lia|]. destruct (p c); simpl; lia.
Qed.

Lemma length_strip U s : length (strip U s) <= length s.
Proof.
  unfold strip. rewrite length_rev.
  etransitivity; [apply length_dropwhile|]. rewrite length_rev. apply length_dropwhile.
Qed.

Lemma length_join_split U s : forall word,
  length (join [sp] (split_from U word s)) <= length word + length s.
Proof.
  induction s as [|c s IH]; intros word; simpl.
  - destruct word; simpl; [lia|]. rewrite length_app, length_rev. simpl. lia.
  - destruct (isspace U c).
    + destruct word as [|a word].
      * specialize (IH []). simpl in IH. lia.
      * specialize (IH []). simpl in IH.
        destruct (split_from U [] s) as [|p ps] eqn:E.
        -- simpl. rewrite length_app, length_rev. simpl. lia.
        -- change (join [sp] (rev (a :: word) :: p :: ps))
             with (rev (a :: word) ++ [sp] ++ join [sp] (p :: ps)).
           rewrite !length_app, length_rev.
           change (length [sp]) with 1.
           change (length (a :: word)) with (S (length word)). lia.
    + specialize (IH (c :: word)). simpl in IH. lia.
Qed.

(** X4: sanitizing never makes a name longer: the result has at most as
    many characters as the input, and at most 50. *)
Theorem clean_filename_never_lengthens (U : unicode) (s : pystr) :
  length (Ckan2.clean_filename U s) <= Nat.min 50 (length s).
Proof.
  unfold Ckan2.clean_filename, slice_to, replace1, split.
  rewrite length_firstn, length_map.
  pose proof (length_join_split U
                (strip U (map (fun char =>
                                 if isalnum U char
                                    || existsb (N.eqb char) [sp; hyphen; underscore; dot]
                                 then char else underscore) s)) []) as Hj.
  pose proof (length_strip U
                (map (fun char =>
                        if isalnum U char
                           || existsb (N.eqb char) [sp; hyphen; underscore; dot]
                        then char else underscore) s)) as Hs.
  rewrite length_map in Hs. apply Nat.min_le_compat_l.
  etransitivity; [exact Hj|]. exact Hs.
Qed.

End MoreFacts.
